(** * Curtain wall and floor plate generators: a shallow embedding

    The two generators of [src/elements] are translated function by
    function.  Lengths are the source's floats, read as real numbers; the
    fragment of [Rhino.Geometry] that the code calls is written out below,
    and what the host decides (handle coercion, polyline extraction, whether
    an extrusion can be built) is taken as a parameter. *)

From Stdlib Require Import Reals Lra Lia List ZArith String Bool.
Import ListNotations.

Open Scope R_scope.

(** ** Python results *)

Inductive PyError : Type :=
| TypeError (msg : string)
| ValueError (msg : string)
| ZeroDivisionError (msg : string).

Inductive result (A : Type) : Type :=
| Ok (a : A)
| Raise (e : PyError).

Arguments Ok {A} a.
Arguments Raise {A} e.

Definition bind {A B : Type} (m : result A) (k : A -> result B) : result B :=
  match m with
  | Ok a => k a
  | Raise e => Raise e
  end.

Notation "x <- m ;; k" := (bind m (fun x => k))
  (at level 61, m at next level, right associativity).

(** A [for] loop whose body may raise. *)
Fixpoint for_each {S I : Type} (body : S -> I -> result S) (xs : list I) (st : S)
  : result S :=
  match xs with
  | [] => Ok st
  | x :: rest => st' <- body st x ;; for_each body rest st'
  end.

(** [range(n)]: empty when [n <= 0]. *)
Definition range (n : Z) : list Z := map Z.of_nat (seq 0 (Z.to_nat n)).

(** ** Float comparisons and conversions *)

Definition Rleb (a b : R) : bool := if Rle_dec a b then true else false.
Definition Rltb (a b : R) : bool := if Rlt_dec a b then true else false.
Definition Reqb (a b : R) : bool := if Req_dec_T a b then true else false.

(** [a // b] on floats. *)
Definition floordiv (a b : R) : result R :=
  if Reqb b 0 then Raise (ZeroDivisionError "float floor division by zero")
  else Ok (IZR (Int_part (a / b))).

(** [int(x)]: truncation toward zero. *)
Definition int (x : R) : Z :=
  if Rleb 0 x then Int_part x else (- Int_part (- x))%Z.

(** ** The fragment of Rhino.Geometry used by the generators *)

Record Vector3d : Type := mkVector3d { vX : R; vY : R; vZ : R }.
Record Point3d : Type := mkPoint3d { pX : R; pY : R; pZ : R }.

Definition Vector3d_ZAxis : Vector3d := mkVector3d 0 0 1.
Definition Vector3d_YAxis : Vector3d := mkVector3d 0 1 0.

Definition Length (v : Vector3d) : R :=
  sqrt (vX v * vX v + vY v * vY v + vZ v * vZ v).

Definition vscale (v : Vector3d) (k : R) : Vector3d :=
  mkVector3d (vX v * k) (vY v * k) (vZ v * k).

(** [v.Unitize()]: a vector of zero length is left as it is. *)
Definition Unitize (v : Vector3d) : Vector3d :=
  let d := Length v in
  if Rltb 0 d then mkVector3d (vX v / d) (vY v / d) (vZ v / d) else v.

Definition CrossProduct (a b : Vector3d) : Vector3d :=
  mkVector3d (vY a * vZ b - vZ a * vY b)
             (vZ a * vX b - vX a * vZ b)
             (vX a * vY b - vY a * vX b).

(** [Vector3d.Multiply(a, b)]: the dot product. *)
Definition Multiply (a b : Vector3d) : R :=
  vX a * vX b + vY a * vY b + vZ a * vZ b.

Definition Reverse (v : Vector3d) : Vector3d :=
  mkVector3d (- vX v) (- vY v) (- vZ v).

(** [RhinoMath.ZeroTolerance] is 2^-32. *)
Definition ZeroTolerance : R := / 4294967296.

Definition IsTiny (v : Vector3d) : bool :=
  Rleb (Rabs (vX v)) ZeroTolerance
  && Rleb (Rabs (vY v)) ZeroTolerance
  && Rleb (Rabs (vZ v)) ZeroTolerance.

Definition psub (p q : Point3d) : Vector3d :=
  mkVector3d (pX p - pX q) (pY p - pY q) (pZ p - pZ q).
Definition padd (p : Point3d) (v : Vector3d) : Point3d :=
  mkPoint3d (pX p + vX v) (pY p + vY v) (pZ p + vZ v).
Definition pminus (p : Point3d) (v : Vector3d) : Point3d :=
  mkPoint3d (pX p - vX v) (pY p - vY v) (pZ p - vZ v).
Definition ppadd (p q : Point3d) : Point3d :=
  mkPoint3d (pX p + pX q) (pY p + pY q) (pZ p + pZ q).
Definition pscale (p : Point3d) (k : R) : Point3d :=
  mkPoint3d (pX p * k) (pY p * k) (pZ p * k).

(** [p.Z += dz] *)
Definition raise_Z (p : Point3d) (dz : R) : Point3d :=
  mkPoint3d (pX p) (pY p) (pZ p + dz).

(** [rg.Plane(origin, xDirection, yDirection)].  Every call site passes a
    unit [xDirection] and a unit [yDirection] orthogonal to it, on which the
    constructor's orthonormalisation changes nothing. *)
Record Plane : Type := mkPlane { Origin : Point3d; XAxis : Vector3d; YAxis : Vector3d }.

Record Interval : Type := mkInterval { T0 : R; T1 : R }.

Record Rectangle3d : Type :=
  mkRectangle3d { rect_plane : Plane; rect_X : Interval; rect_Y : Interval }.

(** A capped extrusion of a profile curve along the normal of its plane. *)
Record Brep (C : Type) : Type :=
  mkBrep { profile : C; height : R; capped : bool }.

Arguments mkBrep {C} profile height capped.
Arguments profile {C} b.
Arguments height {C} b.
Arguments capped {C} b.

Definition Polyline : Type := list Point3d.

Definition Count (pl : Polyline) : Z := Z.of_nat (List.length pl).

(** [pl[i]] for an index in range, which is all the callers use. *)
Definition item (pl : Polyline) (i : Z) : Point3d :=
  nth (Z.to_nat i) pl (mkPoint3d 0 0 0).

Definition eps : R := 1e-6.

(** ** curtain_wall.py *)

(** The keyword arguments of [curtain_wall], after their [float(...)] and
    [int(...)] conversions. *)
Record Params : Type := mkParams {
  mullion_spacing_mm : R;
  mullion_width_mm : R;
  mullion_depth_mm : R;
  transom_height_mm : R;
  transom_depth_mm : R;
  panel_thickness_mm : R;
  glass_inset_mm : R;
  glass_gap_mm : R;
  story_height_mm : R;
  stories : Z
}.

Definition defaults : Params :=
  mkParams 1350 60 120 60 120 24 40 12 3200 1.

(** The locals that live across loop iterations. *)
Record State : Type := mkState {
  prev_yaxis : option Vector3d;
  breps_mullions : list (Brep Rectangle3d);
  breps_glass : list (Brep Rectangle3d)
}.

(** [if b: breps_mullions.append(b)] and [if b: breps_glass.append(b)] *)
Definition append_mullion (b : option (Brep Rectangle3d)) (st : State) : State :=
  match b with
  | Some x => mkState (prev_yaxis st) (breps_mullions st ++ [x]) (breps_glass st)
  | None => st
  end.

Definition append_glass (b : option (Brep Rectangle3d)) (st : State) : State :=
  match b with
  | Some x => mkState (prev_yaxis st) (breps_mullions st) (breps_glass st ++ [x])
  | None => st
  end.

Definition set_prev_yaxis (y : Vector3d) (st : State) : State :=
  mkState (Some y) (breps_mullions st) (breps_glass st).

Definition _centered_rect_curve (plane : Plane) (size_x size_y : R) : Rectangle3d :=
  let ix := mkInterval (- size_x * 0.5) (size_x * 0.5) in
  let iy := mkInterval (- size_y * 0.5) (size_y * 0.5) in
  mkRectangle3d plane ix iy.

(** The solid [_box_brep] returns when the extrusion is built. *)
Definition box (plane : Plane) (size_x size_y height_z : R) : Brep Rectangle3d :=
  mkBrep (_centered_rect_curve plane size_x size_y) height_z true.

(** What [if b: xs.append(b)] adds to [xs]. *)
Definition appended {A : Type} (b : option A) : list A :=
  match b with
  | Some x => [x]
  | None => []
  end.

(** Lines 108-112: the candidate lateral axis, left of the segment. *)
Definition candidate_yaxis (xaxis : Vector3d) : Vector3d :=
  let yaxis := CrossProduct Vector3d_ZAxis xaxis in
  let yaxis := if IsTiny yaxis then Vector3d_YAxis else yaxis in
  Unitize yaxis.

(** Lines 115-116: keep the lateral axis consistent across segments. *)
Definition keep_consistent (prev : option Vector3d) (yaxis : Vector3d) : Vector3d :=
  match prev with
  | Some p => if Rltb (Multiply yaxis p) 0 then Reverse yaxis else yaxis
  | None => yaxis
  end.

(** [Extrusion.Create(crv, h, cap)] followed by [ext.ToBrep() if ext else None];
    [extrudes] says whether the kernel returns an extrusion. *)
Definition Extrusion_Create {C : Type} (extrudes : C -> R -> bool)
           (crv : C) (h : R) (cap : bool) : option (Brep C) :=
  if extrudes crv h then Some (mkBrep crv h cap) else None.

(** Lines 120-121: the bay count and the bay width of a segment. *)
Definition panel_count_of (seg_len spacing : R) : result Z :=
  q <- floordiv seg_len spacing ;;
  Ok (Z.max 1 (int q)).

Definition step_of (seg_len : R) (panel_count : Z) : R :=
  seg_len / IZR panel_count.

Section CurtainWall.

(** What the host decides: [rs.coercecurve], [Curve.TryGetPolyline] and
    whether [Extrusion.Create] returns an extrusion. *)
Variables Guide Curve : Type.
Variable coercecurve : Guide -> option Curve.
Variable TryGetPolyline : Curve -> option Polyline.
Variable extrudes : Rectangle3d -> R -> bool.

Definition _coerce_polyline (crv : Guide) : result Polyline :=
  match coercecurve crv with
  | None => Raise (TypeError "guide must be a Curve")
  | Some crv =>
      match TryGetPolyline crv with
      | None =>
          Raise (TypeError "guide must be a polyline (or convertible to polyline)")
      | Some pl =>
          if (Count pl <? 2)%Z
          then Raise (ValueError "polyline must have at least 2 points")
          else Ok pl
      end
  end.

Definition _box_brep (plane : Plane) (size_x size_y height_z : R)
  : option (Brep Rectangle3d) :=
  let crv := _centered_rect_curve plane size_x size_y in
  Extrusion_Create extrudes crv height_z true.

Definition _panel_brep (plane : Plane) (width_mm height_mm thickness_mm : R)
  : option (Brep Rectangle3d) :=
  _box_brep plane width_mm thickness_mm height_mm.

Variable prm : Params.

(** Body of [for j in range(panel_count)], lines 124-186. *)
Definition bay (z0 z1 : R) (p_start : Point3d) (base_z : R)
           (xaxis yaxis : Vector3d) (step : R) (st : State) (j : Z) : State :=
  let d0 := IZR j * step in
  let d1 := (IZR j + 1) * step in
  let base_pt := padd p_start (vscale xaxis d0) in
  let next_pt := padd p_start (vscale xaxis d1) in
  let base_pt := raise_Z base_pt z0 in
  let next_pt := raise_Z next_pt z0 in
  let mull_plane := mkPlane base_pt xaxis yaxis in
  let mull := _box_brep mull_plane (mullion_width_mm prm) (mullion_depth_mm prm)
                        (story_height_mm prm) in
  let st := append_mullion mull st in
  let edge_offset := mullion_width_mm prm * 0.5 in
  let panel_start := padd base_pt (vscale xaxis edge_offset) in
  let panel_end := pminus next_pt (vscale xaxis edge_offset) in
  let clear_vec := psub panel_end panel_start in
  let clear_span := Length clear_vec in
  if Rleb clear_span eps then st else
  let clear_width := clear_span - 2.0 * glass_gap_mm prm in
  let clear_height :=
    story_height_mm prm - 2.0 * transom_height_mm prm - 2.0 * glass_gap_mm prm in
  if Rleb clear_width eps || Rleb clear_height eps then st else
  let clear_dir := Unitize clear_vec in
  let mid := pscale (ppadd panel_start panel_end) 0.5 in
  let bot_mid := mkPoint3d (pX mid) (pY mid) (base_z + z0) in
  let bot_plane := mkPlane bot_mid clear_dir yaxis in
  let bottom := _box_brep bot_plane clear_span (transom_depth_mm prm)
                          (transom_height_mm prm) in
  let st := append_mullion bottom st in
  let top_mid := mkPoint3d (pX mid) (pY mid) (base_z + z1 - transom_height_mm prm) in
  let top_plane := mkPlane top_mid clear_dir yaxis in
  let top := _box_brep top_plane clear_span (transom_depth_mm prm)
                       (transom_height_mm prm) in
  let st := append_mullion top st in
  let glass_center_offset :=
    mullion_depth_mm prm * 0.5 - glass_inset_mm prm - panel_thickness_mm prm * 0.5 in
  let glass_origin :=
    mkPoint3d (pX mid - vX yaxis * glass_center_offset)
              (pY mid - vY yaxis * glass_center_offset)
              (base_z + z0 + transom_height_mm prm + glass_gap_mm prm) in
  let glass_plane := mkPlane glass_origin clear_dir yaxis in
  let glass := _panel_brep glass_plane clear_width clear_height
                           (panel_thickness_mm prm) in
  append_glass glass st.

(** The values one pass of the bay loop computes, by name. *)
Definition base_pt_of (z0 : R) (p_start : Point3d) (xaxis : Vector3d) (step : R) (j : Z)
  : Point3d :=
  raise_Z (padd p_start (vscale xaxis (IZR j * step))) z0.

Definition next_pt_of (z0 : R) (p_start : Point3d) (xaxis : Vector3d) (step : R) (j : Z)
  : Point3d :=
  raise_Z (padd p_start (vscale xaxis ((IZR j + 1) * step))) z0.

Definition panel_start_of (z0 : R) (p_start : Point3d) (xaxis : Vector3d) (step : R)
           (j : Z) : Point3d :=
  padd (base_pt_of z0 p_start xaxis step j) (vscale xaxis (mullion_width_mm prm * 0.5)).

Definition panel_end_of (z0 : R) (p_start : Point3d) (xaxis : Vector3d) (step : R)
           (j : Z) : Point3d :=
  pminus (next_pt_of z0 p_start xaxis step j) (vscale xaxis (mullion_width_mm prm * 0.5)).

Definition clear_vec_of (z0 : R) (p_start : Point3d) (xaxis : Vector3d) (step : R)
           (j : Z) : Vector3d :=
  psub (panel_end_of z0 p_start xaxis step j) (panel_start_of z0 p_start xaxis step j).

Definition clear_span_of (z0 : R) (p_start : Point3d) (xaxis : Vector3d) (step : R)
           (j : Z) : R :=
  Length (clear_vec_of z0 p_start xaxis step j).

Definition clear_width_of (clear_span : R) : R :=
  clear_span - 2.0 * glass_gap_mm prm.

Definition clear_height_of : R :=
  story_height_mm prm - 2.0 * transom_height_mm prm - 2.0 * glass_gap_mm prm.

Definition mid_of (z0 : R) (p_start : Point3d) (xaxis : Vector3d) (step : R) (j : Z)
  : Point3d :=
  pscale (ppadd (panel_start_of z0 p_start xaxis step j)
                (panel_end_of z0 p_start xaxis step j)) 0.5.

Definition mullion_at (pt : Point3d) (xaxis yaxis : Vector3d)
  : option (Brep Rectangle3d) :=
  _box_brep (mkPlane pt xaxis yaxis) (mullion_width_mm prm) (mullion_depth_mm prm)
            (story_height_mm prm).

Definition transom_at (z : R) (z0 : R) (p_start : Point3d) (xaxis yaxis : Vector3d)
           (step : R) (j : Z) : option (Brep Rectangle3d) :=
  let mid := mid_of z0 p_start xaxis step j in
  _box_brep (mkPlane (mkPoint3d (pX mid) (pY mid) z)
                     (Unitize (clear_vec_of z0 p_start xaxis step j)) yaxis)
            (clear_span_of z0 p_start xaxis step j) (transom_depth_mm prm)
            (transom_height_mm prm).

Definition glass_center_offset_of : R :=
  mullion_depth_mm prm * 0.5 - glass_inset_mm prm - panel_thickness_mm prm * 0.5.

Definition glass_at (z : R) (z0 : R) (p_start : Point3d) (xaxis yaxis : Vector3d)
           (step : R) (j : Z) : option (Brep Rectangle3d) :=
  let mid := mid_of z0 p_start xaxis step j in
  _panel_brep (mkPlane (mkPoint3d (pX mid - vX yaxis * glass_center_offset_of)
                                  (pY mid - vY yaxis * glass_center_offset_of) z)
                       (Unitize (clear_vec_of z0 p_start xaxis step j)) yaxis)
              (clear_width_of (clear_span_of z0 p_start xaxis step j))
              clear_height_of (panel_thickness_mm prm).

(** Body of [for i in range(pl.Count - 1)], lines 94-194. *)
Definition segment (pl : Polyline) (z0 z1 : R) (st : State) (i : Z) : result State :=
  let p_start := item pl i in
  let p_end := item pl (i + 1) in
  let seg_vec := psub p_end p_start in
  let seg_len := Length seg_vec in
  let base_z := pZ p_start in
  if Rleb seg_len eps then Ok st else
  let xaxis := Unitize seg_vec in
  let yaxis := candidate_yaxis xaxis in
  let yaxis := keep_consistent (prev_yaxis st) yaxis in
  let st := set_prev_yaxis yaxis st in
  panel_count <- panel_count_of seg_len (mullion_spacing_mm prm) ;;
  let step := step_of seg_len panel_count in
  let st := fold_left (bay z0 z1 p_start base_z xaxis yaxis step)
                      (range panel_count) st in
  let end_pt := raise_Z p_end z0 in
  let end_plane := mkPlane end_pt xaxis yaxis in
  let end_mull := _box_brep end_plane (mullion_width_mm prm) (mullion_depth_mm prm)
                            (story_height_mm prm) in
  Ok (append_mullion end_mull st).

(** What a bay with room for glazing adds to the two collections. *)
Definition bay_framing (z0 z1 : R) (p_start : Point3d) (base_z : R)
           (xaxis yaxis : Vector3d) (step : R) (j : Z) : list (Brep Rectangle3d) :=
  appended (mullion_at (base_pt_of z0 p_start xaxis step j) xaxis yaxis)
  ++ appended (transom_at (base_z + z0) z0 p_start xaxis yaxis step j)
  ++ appended (transom_at (base_z + z1 - transom_height_mm prm) z0 p_start xaxis yaxis
                          step j).

Definition bay_glazing (z0 : R) (p_start : Point3d) (base_z : R)
           (xaxis yaxis : Vector3d) (step : R) (j : Z) : list (Brep Rectangle3d) :=
  appended (glass_at (base_z + z0 + transom_height_mm prm + glass_gap_mm prm)
                     z0 p_start xaxis yaxis step j).

(** The length and the frame of segment [i], by name. *)
Definition seg_len_of (pl : Polyline) (i : Z) : R :=
  Length (psub (item pl (i + 1)) (item pl i)).

Definition xaxis_of (pl : Polyline) (i : Z) : Vector3d :=
  Unitize (psub (item pl (i + 1)) (item pl i)).

Definition yaxis_of (prev : option Vector3d) (pl : Polyline) (i : Z) : Vector3d :=
  keep_consistent prev (candidate_yaxis (xaxis_of pl i)).

(** Body of [for s in range(stories)], lines 90-194. *)
Definition story (pl : Polyline) (st : State) (s : Z) : result State :=
  let z0 := IZR s * story_height_mm prm in
  let z1 := z0 + story_height_mm prm in
  for_each (segment pl z0 z1) (range (Count pl - 1)) st.

Definition curtain_wall (guide : Guide)
  : result (list (Brep Rectangle3d) * list (Brep Rectangle3d)) :=
  pl <- _coerce_polyline guide ;;
  let st := mkState None [] [] in
  st <- for_each (story pl) (range (stories prm)) st ;;
  Ok (breps_mullions st, breps_glass st).

End CurtainWall.

(** ** floor_plate.py *)

(** A Python [dict] with string keys, in insertion order. *)
Definition dict (V : Type) : Type := list (string * V).

Fixpoint dict_set {V : Type} (k : string) (v : V) (d : dict V) : dict V :=
  match d with
  | [] => [(k, v)]
  | (k', v') :: rest =>
      if String.eqb k k' then (k, v) :: rest else (k', v') :: dict_set k v rest
  end.

Fixpoint dict_get {V : Type} (k : string) (d : dict V) : option V :=
  match d with
  | [] => None
  | (k', v') :: rest => if String.eqb k k' then Some v' else dict_get k rest
  end.

Definition keys {V : Type} (d : dict V) : list string := map fst d.

Section FloorPlate.

(** What the host decides: [rs.coercecurve], the translated copy of a curve
    and whether [Extrusion.Create] returns an extrusion. *)
Variables Boundary Curve : Type.
Variable coercecurve : Boundary -> option Curve.
Variable Translation : R -> R -> R -> Curve -> Curve.
Variable extrudes : Curve -> R -> bool.

Definition _coerce_curve (crv : Boundary) : result Curve :=
  match coercecurve crv with
  | None => Raise (TypeError "boundary must be a Curve")
  | Some crv => Ok crv
  end.

Definition _planar_slab (curve : Curve) (z_base thickness : R) : option (Brep Curve) :=
  let crv := Translation 0 0 z_base curve in
  Extrusion_Create extrudes crv (- thickness) true.

Definition floor_plate (boundary : Boundary) (elevation_mm : R)
           (finish_thickness_mm screed_thickness_mm
            insulation_thickness_mm structural_thickness_mm : R)
  : result (dict (option (Brep Curve))) :=
  boundary <- _coerce_curve boundary ;;
  let z := elevation_mm in
  let layers := [] in
  let layers := dict_set "finish" (_planar_slab boundary z finish_thickness_mm) layers in
  let z := z - finish_thickness_mm in
  let layers := dict_set "screed" (_planar_slab boundary z screed_thickness_mm) layers in
  let z := z - screed_thickness_mm in
  let layers :=
    dict_set "insulation" (_planar_slab boundary z insulation_thickness_mm) layers in
  let z := z - insulation_thickness_mm in
  let layers :=
    dict_set "structural" (_planar_slab boundary z structural_thickness_mm) layers in
  Ok layers.

End FloorPlate.

(** ** Observations on solids *)


(** A solid moved up by [dz]. *)
Definition translate_Z (dz : R) (b : Brep Rectangle3d) : Brep Rectangle3d :=
  let r := profile b in
  let pln := rect_plane r in
  mkBrep (mkRectangle3d (mkPlane (raise_Z (Origin pln) dz) (XAxis pln) (YAxis pln))
                        (rect_X r) (rect_Y r))
         (height b) (capped b).

Definition origin_of (b : Brep Rectangle3d) : Point3d := Origin (rect_plane (profile b)).
Definition lateral_of (b : Brep Rectangle3d) : Vector3d := YAxis (rect_plane (profile b)).

(** Position along the lateral axis, measured from the point [r] of the guide,
    of the faces of a solid on its positive and negative lateral side. *)
Definition lateral_coord (y : Vector3d) (r p : Point3d) : R :=
  Multiply y (psub p r).

Definition outer_face (r : Point3d) (b : Brep Rectangle3d) : R :=
  lateral_coord (lateral_of b) r (origin_of b) + T1 (rect_Y (profile b)).

Definition inner_face (r : Point3d) (b : Brep Rectangle3d) : R :=
  lateral_coord (lateral_of b) r (origin_of b) + T0 (rect_Y (profile b)).

(** ** Concrete inputs *)

(** A host in which a guide is its polyline and every extrusion is built. *)
Definition as_curve (g : Polyline) : option Polyline := Some g.
Definition as_polyline (c : Polyline) : option Polyline := Some c.
Definition always_extrudes (r : Rectangle3d) (h : R) : bool := true.

Definition wall_of (prm : Params) (pl : Polyline)
  : result (list (Brep Rectangle3d) * list (Brep Rectangle3d)) :=
  curtain_wall Polyline Polyline as_curve as_polyline always_extrudes prm pl.

(** A boundary given by its vertices, moved by moving each vertex. *)
Definition translate_polyline (dx dy dz : R) (pl : Polyline) : Polyline :=
  map (fun p => mkPoint3d (pX p + dx) (pY p + dy) (pZ p + dz)) pl.

Definition always_extrudes_polyline (c : Polyline) (h : R) : bool := true.

Definition unit_square : Polyline :=
  [mkPoint3d 0 0 0; mkPoint3d 1 0 0; mkPoint3d 1 1 0; mkPoint3d 0 1 0; mkPoint3d 0 0 0].

(** One straight segment of length 4000. *)
Definition straight_guide : Polyline := [mkPoint3d 0 0 0; mkPoint3d 4000 0 0].

(** Three sides of a square of side 2000, walked counter-clockwise. *)
Definition U_guide : Polyline :=
  [mkPoint3d 0 0 0; mkPoint3d 2000 0 0; mkPoint3d 2000 2000 0; mkPoint3d 0 2000 0].

(** The defaults with [transom_height_mm=1600], half the story height. *)
Definition tall_transoms : Params := mkParams 1350 60 120 1600 120 24 40 12 3200 1.

(** The defaults with [stories=2]. *)
Definition two_stories : Params := mkParams 1350 60 120 60 120 24 40 12 3200 2.

(** The same keyword arguments with another [stories]. *)
Definition with_stories (prm : Params) (n : Z) : Params :=
  mkParams (mullion_spacing_mm prm) (mullion_width_mm prm) (mullion_depth_mm prm)
           (transom_height_mm prm) (transom_depth_mm prm) (panel_thickness_mm prm)
           (glass_inset_mm prm) (glass_gap_mm prm) (story_height_mm prm) n.

(** The defaults with [mullion_spacing_mm=0]. *)
Definition zero_spacing : Params := mkParams 0 60 120 60 120 24 40 12 3200 1.

(** The defaults with [mullion_spacing_mm=100] and [mullion_width_mm=500]: every
    bay is narrower than its mullion. *)
Definition wide_mullions : Params := mkParams 100 500 120 60 120 24 40 12 3200 1.

(** One segment of length 30, shorter than the default mullion width of 60. *)
Definition narrow_guide : Polyline := [mkPoint3d 0 0 0; mkPoint3d 30 0 0].

(** One segment of length 5000 that climbs 4000 over a run of 3000. *)
Definition sloped_guide : Polyline := [mkPoint3d 0 0 0; mkPoint3d 3000 0 4000].

(** The unit square drawn at the height 500. *)
Definition raised_square : Polyline :=
  [mkPoint3d 0 0 500; mkPoint3d 1 0 500; mkPoint3d 1 1 500; mkPoint3d 0 1 500;
   mkPoint3d 0 0 500].

(** The direction along which a solid is extruded: the normal of the plane of
    its profile. *)
Definition normal_of (b : Brep Rectangle3d) : Vector3d :=
  CrossProduct (XAxis (rect_plane (profile b))) (YAxis (rect_plane (profile b))).

(** A slab whose profile lies in the horizontal plane of height [z]. *)
Definition profile_at (z : R) (s : Brep Polyline) : Prop :=
  Forall (fun p => pZ p = z) (profile s).

(** * Properties *)

(** ** Comparisons, floor and truncation *)

Lemma eps_pos : 0 < eps.
Proof. unfold eps. lra. Qed.

Lemma Rleb_true (a b : R) : a <= b -> Rleb a b = true.
Proof. intro H. unfold Rleb. destruct (Rle_dec a b); [reflexivity | contradiction]. Qed.

Lemma Rleb_false (a b : R) : b < a -> Rleb a b = false.
Proof. intro H. unfold Rleb. destruct (Rle_dec a b); [lra | reflexivity]. Qed.

Lemma Rleb_spec (a b : R) : Rleb a b = true <-> a <= b.
Proof.
  unfold Rleb. destruct (Rle_dec a b); split; intro H; auto; discriminate.
Qed.

Lemma Rltb_true (a b : R) : a < b -> Rltb a b = true.
Proof. intro H. unfold Rltb. destruct (Rlt_dec a b); [reflexivity | contradiction]. Qed.

Lemma Rltb_false (a b : R) : b <= a -> Rltb a b = false.
Proof. intro H. unfold Rltb. destruct (Rlt_dec a b); [lra | reflexivity]. Qed.

Lemma Reqb_false (a b : R) : a <> b -> Reqb a b = false.
Proof. intro H. unfold Reqb. destruct (Req_dec_T a b); [contradiction | reflexivity]. Qed.

Lemma Reqb_true (a b : R) : a = b -> Reqb a b = true.
Proof. intro H. unfold Reqb. destruct (Req_dec_T a b); [reflexivity | contradiction]. Qed.

Lemma Int_part_unique (r : R) (z : Z) : IZR z <= r < IZR z + 1 -> Int_part r = z.
Proof.
  intros [H1 H2]. symmetry. apply Int_part_spec. lra.
Qed.

Lemma Int_part_IZR (z : Z) : Int_part (IZR z) = z.
Proof. apply Int_part_unique. lra. Qed.

Lemma int_IZR (z : Z) : int (IZR z) = z.
Proof.
  unfold int. destruct (Rleb 0 (IZR z)).
  - apply Int_part_IZR.
  - rewrite <- opp_IZR, Int_part_IZR. lia.
Qed.

Lemma floordiv_ok (a b : R) : b <> 0 -> floordiv a b = Ok (IZR (Int_part (a / b))).
Proof. intro H. unfold floordiv. rewrite Reqb_false by assumption. reflexivity. Qed.

Lemma panel_count_of_ok (seg_len spacing : R) :
  spacing <> 0 ->
  panel_count_of seg_len spacing = Ok (Z.max 1 (Int_part (seg_len / spacing))).
Proof.
  intro H. unfold panel_count_of. rewrite floordiv_ok by assumption.
  simpl. rewrite int_IZR. reflexivity.
Qed.

Lemma range_S (n : nat) : range (Z.of_nat (S n)) = range (Z.of_nat n) ++ [Z.of_nat n].
Proof.
  unfold range. rewrite !Nat2Z.id. rewrite seq_S, map_app. reflexivity.
Qed.

(** ** Vectors *)

Lemma Length_nonneg (v : Vector3d) : 0 <= Length v.
Proof. unfold Length. apply sqrt_pos. Qed.

Lemma Length_eval (v : Vector3d) (l : R) :
  0 <= l -> l * l = vX v * vX v + vY v * vY v + vZ v * vZ v -> Length v = l.
Proof.
  intros Hl H. unfold Length. apply sqrt_lem_1; try assumption. nra.
Qed.

Lemma Length_sqr (v : Vector3d) :
  Length v * Length v = vX v * vX v + vY v * vY v + vZ v * vZ v.
Proof. unfold Length. apply sqrt_sqrt. nra. Qed.

Lemma Length_vscale (v : Vector3d) (k : R) : Length (vscale v k) = Rabs k * Length v.
Proof.
  apply Length_eval.
  - apply Rmult_le_pos; [apply Rabs_pos | apply Length_nonneg].
  - simpl. pose proof (Length_sqr v) as H.
    assert (Hk : Rabs k * Rabs k = k * k).
    { destruct (Rcase_abs k) as [Hn | Hp].
      - rewrite (Rabs_left _ Hn). ring.
      - rewrite (Rabs_right _ Hp). ring. }
    transitivity ((Rabs k * Rabs k) * (Length v * Length v)); [ring |].
    rewrite Hk, H. ring.
Qed.

Lemma Unitize_eval (v : Vector3d) (l : R) :
  0 < l -> Length v = l -> Unitize v = mkVector3d (vX v / l) (vY v / l) (vZ v / l).
Proof.
  intros Hl H. unfold Unitize. rewrite H, Rltb_true by assumption. reflexivity.
Qed.

Lemma Length_Unitize (v : Vector3d) : 0 < Length v -> Length (Unitize v) = 1.
Proof.
  intro H. rewrite (Unitize_eval v (Length v) H eq_refl).
  apply Length_eval; [lra |]. simpl.
  pose proof (Length_sqr v) as Hs. set (l := Length v) in *.
  transitivity ((vX v * vX v + vY v * vY v + vZ v * vZ v) / (l * l)).
  - rewrite <- Hs. field. lra.
  - field. lra.
Qed.

Lemma psub_self (p : Point3d) : Length (psub p p) = 0.
Proof. apply Length_eval; [lra |]. simpl. ring. Qed.

(** ** The guide resolver *)

Ltac break_hyps :=
  repeat match goal with
         | H : exists _, _ |- _ => destruct H
         | H : _ /\ _ |- _ => destruct H
         end.

Section Resolver.

Variables Guide Curve : Type.
Variable coercecurve : Guide -> option Curve.
Variable TryGetPolyline : Curve -> option Polyline.
Variable extrudes : Rectangle3d -> R -> bool.

Local Abbreviation coerce := (_coerce_polyline Guide Curve coercecurve TryGetPolyline).
Local Abbreviation wall :=
  (curtain_wall Guide Curve coercecurve TryGetPolyline extrudes).

Lemma coerce_cases (g : Guide) :
  (coercecurve g = None /\ coerce g = Raise (TypeError "guide must be a Curve"))
  \/ (exists c, coercecurve g = Some c /\ TryGetPolyline c = None /\
        coerce g =
        Raise (TypeError "guide must be a polyline (or convertible to polyline)"))
  \/ (exists c pl, coercecurve g = Some c /\ TryGetPolyline c = Some pl /\
        (Count pl < 2)%Z /\
        coerce g = Raise (ValueError "polyline must have at least 2 points"))
  \/ (exists c pl, coercecurve g = Some c /\ TryGetPolyline c = Some pl /\
        (2 <= Count pl)%Z /\ coerce g = Ok pl).
Proof.
  unfold _coerce_polyline.
  destruct (coercecurve g) as [c |] eqn:Hc; [| left; auto].
  right. destruct (TryGetPolyline c) as [pl |] eqn:Hp.
  - right. destruct (Count pl <? 2)%Z eqn:Hn.
    + left. exists c, pl. apply Z.ltb_lt in Hn. auto.
    + right. exists c, pl. apply Z.ltb_ge in Hn. auto.
  - left. exists c. auto.
Qed.

(** C6: the resolver raises the first TypeError exactly when the handle is
    not a curve, the second TypeError exactly when the curve is not a
    polyline, the ValueError exactly when the polyline has fewer than two
    points, and otherwise returns the polyline unchanged; an error of the
    resolver is the result of [curtain_wall], so no solid is built. *)
Theorem C6_guide_resolver (g : Guide) :
  (coerce g = Raise (TypeError "guide must be a Curve") <-> coercecurve g = None)
  /\ (coerce g = Raise (TypeError "guide must be a polyline (or convertible to polyline)")
      <-> exists c, coercecurve g = Some c /\ TryGetPolyline c = None)
  /\ (coerce g = Raise (ValueError "polyline must have at least 2 points")
      <-> exists c pl, coercecurve g = Some c /\ TryGetPolyline c = Some pl /\
                       (Count pl < 2)%Z)
  /\ (forall pl, coerce g = Ok pl
      <-> exists c, coercecurve g = Some c /\ TryGetPolyline c = Some pl /\
                    (2 <= Count pl)%Z)
  /\ (forall e, coerce g = Raise e ->
        (e = TypeError "guide must be a Curve"
         \/ e = TypeError "guide must be a polyline (or convertible to polyline)"
         \/ e = ValueError "polyline must have at least 2 points")
        /\ forall prm, wall prm g = Raise e).
Proof.
  destruct (coerce_cases g)
    as [[Hc E] | [(c & Hc & Hp & E) | [(c & pl & Hc & Hp & Hn & E)
                                      | (c & pl & Hc & Hp & Hn & E)]]];
    rewrite E; repeat split; intros; break_hyps;
    try discriminate; try congruence; eauto.
  all: try (unfold curtain_wall; rewrite E; simpl; congruence).
  all: try match goal with
           | H : Raise _ = Raise _ |- _ => inversion H; subst; auto
           | H : Ok _ = Ok _ |- _ => inversion H; subst; eauto
           end.
  all: exfalso;
    match goal with
    | H1 : TryGetPolyline ?c1 = Some ?p1, H2 : TryGetPolyline ?c2 = Some ?p2 |- _ =>
        assert (p1 = p2) by congruence; subst; lia
    end.
Qed.

End Resolver.

(** ** The bay loop and the segment loop *)

Lemma vector_eq (a b : Vector3d) :
  vX a = vX b -> vY a = vY b -> vZ a = vZ b -> a = b.
Proof. destruct a, b; simpl; intros; subst; reflexivity. Qed.

Lemma point_eq (a b : Point3d) :
  pX a = pX b -> pY a = pY b -> pZ a = pZ b -> a = b.
Proof. destruct a, b; simpl; intros; subst; reflexivity. Qed.

Lemma prev_append_mullion (b : option (Brep Rectangle3d)) (st : State) :
  prev_yaxis (append_mullion b st) = prev_yaxis st.
Proof. destruct b; reflexivity. Qed.

Lemma prev_append_glass (b : option (Brep Rectangle3d)) (st : State) :
  prev_yaxis (append_glass b st) = prev_yaxis st.
Proof. destruct b; reflexivity. Qed.

Section Wall.

Variables Guide Curve : Type.
Variable coercecurve : Guide -> option Curve.
Variable TryGetPolyline : Curve -> option Polyline.
Variable extrudes : Rectangle3d -> R -> bool.
Variable prm : Params.

Local Abbreviation mullion := (mullion_at extrudes prm).
Local Abbreviation transom := (transom_at extrudes prm).
Local Abbreviation glass := (glass_at extrudes prm).
Local Abbreviation clear_span := (clear_span_of prm).

Lemma clear_vec_scaled z0 p x step j :
  clear_vec_of prm z0 p x step j = vscale x (step - mullion_width_mm prm).
Proof.
  unfold clear_vec_of, panel_end_of, panel_start_of, next_pt_of, base_pt_of.
  apply vector_eq; cbn [vX vY vZ pX pY pZ psub padd pminus raise_Z vscale]; lra.
Qed.

Lemma clear_span_unit z0 p x step j :
  Length x = 1 -> clear_span z0 p x step j = Rabs (step - mullion_width_mm prm).
Proof.
  intro H. unfold clear_span_of. rewrite clear_vec_scaled, Length_vscale, H. ring.
Qed.

Lemma bay_skip z0 z1 p bz x y step st j :
  clear_span z0 p x step j <= eps
  \/ clear_width_of prm (clear_span z0 p x step j) <= eps
  \/ clear_height_of prm <= eps ->
  bay extrudes prm z0 z1 p bz x y step st j
  = append_mullion (mullion (base_pt_of z0 p x step j) x y) st.
Proof.
  intro H. unfold bay. cbv zeta.
  fold (base_pt_of z0 p x step j) (next_pt_of z0 p x step j).
  fold (panel_start_of prm z0 p x step j) (panel_end_of prm z0 p x step j).
  fold (clear_vec_of prm z0 p x step j). fold (clear_span z0 p x step j).
  fold (clear_width_of prm (clear_span z0 p x step j)). fold (clear_height_of prm).
  fold (mullion (base_pt_of z0 p x step j) x y).
  destruct (Rleb (clear_span z0 p x step j) eps) eqn:E1; [reflexivity |].
  destruct H as [H | [H | H]].
  - apply Rleb_true in H. congruence.
  - rewrite (Rleb_true _ _ H). reflexivity.
  - rewrite (Rleb_true _ _ H), orb_true_r. reflexivity.
Qed.

Lemma bay_full z0 z1 p bz x y step st j :
  eps < clear_span z0 p x step j ->
  eps < clear_width_of prm (clear_span z0 p x step j) ->
  eps < clear_height_of prm ->
  bay extrudes prm z0 z1 p bz x y step st j
  = append_glass
      (glass (bz + z0 + transom_height_mm prm + glass_gap_mm prm) z0 p x y step j)
      (append_mullion
         (transom (bz + z1 - transom_height_mm prm) z0 p x y step j)
         (append_mullion
            (transom (bz + z0) z0 p x y step j)
            (append_mullion (mullion (base_pt_of z0 p x step j) x y) st))).
Proof.
  intros H1 H2 H3. unfold bay. cbv zeta.
  fold (base_pt_of z0 p x step j) (next_pt_of z0 p x step j).
  fold (panel_start_of prm z0 p x step j) (panel_end_of prm z0 p x step j).
  fold (clear_vec_of prm z0 p x step j). fold (clear_span z0 p x step j).
  fold (clear_width_of prm (clear_span z0 p x step j)). fold (clear_height_of prm).
  rewrite (Rleb_false _ _ H1), (Rleb_false _ _ H2), (Rleb_false _ _ H3).
  reflexivity.
Qed.

Lemma segment_skip pl z0 z1 st i :
  seg_len_of pl i <= eps -> segment extrudes prm pl z0 z1 st i = Ok st.
Proof.
  intro H. unfold segment. cbv zeta. fold (seg_len_of pl i).
  rewrite (Rleb_true _ _ H). reflexivity.
Qed.

Lemma segment_run pl z0 z1 st i :
  eps < seg_len_of pl i ->
  mullion_spacing_mm prm <> 0 ->
  let x := xaxis_of pl i in
  let y := yaxis_of (prev_yaxis st) pl i in
  let n := Z.max 1 (Int_part (seg_len_of pl i / mullion_spacing_mm prm)) in
  segment extrudes prm pl z0 z1 st i
  = Ok (append_mullion
          (mullion (raise_Z (item pl (i + 1)) z0) x y)
          (fold_left (bay extrudes prm z0 z1 (item pl i) (pZ (item pl i)) x y
                          (step_of (seg_len_of pl i) n))
                     (range n) (set_prev_yaxis y st))).
Proof.
  intros H Hs x y n. unfold segment. cbv zeta. fold (seg_len_of pl i).
  rewrite (Rleb_false _ _ H), (panel_count_of_ok _ _ Hs). reflexivity.
Qed.

End Wall.

(** ** Claims on the resolver's callers, the subdivider and the frames *)

Lemma for_each_unchanged {S I : Type} (body : S -> I -> result S) (xs : list I) (st : S) :
  (forall x, body st x = Ok st) -> for_each body xs st = Ok st.
Proof.
  intro H. induction xs as [| x xs IH]; simpl; [reflexivity |].
  rewrite H. simpl. exact IH.
Qed.

Lemma keep_consistent_dot (p c : Vector3d) :
  0 <= Multiply p (keep_consistent (Some p) c).
Proof.
  unfold keep_consistent, Rltb.
  destruct (Rlt_dec (Multiply c p) 0) as [Hneg | Hpos]; unfold Multiply in *; simpl; lra.
Qed.

Lemma Unitize_YAxis : Unitize Vector3d_YAxis = Vector3d_YAxis.
Proof.
  rewrite (Unitize_eval _ 1); [| lra | apply Length_eval; simpl; lra].
  apply vector_eq; simpl; lra.
Qed.

Lemma append_mullion_eq (b : option (Brep Rectangle3d)) (st : State) :
  append_mullion b st
  = mkState (prev_yaxis st) (breps_mullions st ++ appended b) (breps_glass st).
Proof. destruct st, b; simpl; rewrite ?app_nil_r; reflexivity. Qed.

Lemma append_glass_eq (b : option (Brep Rectangle3d)) (st : State) :
  append_glass b st
  = mkState (prev_yaxis st) (breps_mullions st) (breps_glass st ++ appended b).
Proof. destruct st, b; simpl; rewrite ?app_nil_r; reflexivity. Qed.

Lemma IsTiny_false (v : Vector3d) :
  ZeroTolerance < Rabs (vX v) \/ ZeroTolerance < Rabs (vY v)
  \/ ZeroTolerance < Rabs (vZ v) ->
  IsTiny v = false.
Proof.
  intros [H | [H | H]]; unfold IsTiny; rewrite (Rleb_false _ _ H);
    rewrite ?andb_false_r; reflexivity.
Qed.

(** On a horizontal unit forward axis the candidate is the axis turned a
    quarter turn to the left. *)
Lemma candidate_horizontal (x : Vector3d) :
  vZ x = 0 -> vX x * vX x + vY x * vY x = 1 ->
  candidate_yaxis x = mkVector3d (- vY x) (vX x) 0.
Proof.
  intros Hz Hu. unfold candidate_yaxis. cbv zeta.
  assert (Htol : ZeroTolerance < / 2) by (unfold ZeroTolerance; lra).
  rewrite IsTiny_false.
  - rewrite (Unitize_eval _ 1); [| lra | apply Length_eval; simpl; nra].
    apply vector_eq; simpl; lra.
  - simpl.
    destruct (Rle_lt_dec (Rabs (vX x)) (/ 2)) as [Hx | Hx]; [| right; left; 
      replace (1 * vX x - 0 * vZ x) with (vX x) by lra; lra].
    left. replace (0 * vZ x - 1 * vY x) with (- vY x) by lra. rewrite Rabs_Ropp.
    destruct (Rle_lt_dec (Rabs (vY x)) (/ 2)) as [Hy | Hy]; [| lra].
    exfalso.
    assert (Hx2 : vX x * vX x <= / 4).
    { replace (vX x * vX x) with (Rabs (vX x) * Rabs (vX x)).
      - pose proof (Rabs_pos (vX x)). nra.
      - unfold Rabs. destruct (Rcase_abs (vX x)); ring. }
    assert (Hy2 : vY x * vY x <= / 4).
    { replace (vY x * vY x) with (Rabs (vY x) * Rabs (vY x)).
      - pose proof (Rabs_pos (vY x)). nra.
      - unfold Rabs. destruct (Rcase_abs (vY x)); ring. }
    lra.
Qed.

Section WallClaims.

Variables Guide Curve : Type.
Variable coercecurve : Guide -> option Curve.
Variable TryGetPolyline : Curve -> option Polyline.
Variable extrudes : Rectangle3d -> R -> bool.

Local Abbreviation wall :=
  (curtain_wall Guide Curve coercecurve TryGetPolyline extrudes).

Lemma bay_prev prm z0 z1 p bz x y step st j :
  prev_yaxis (bay extrudes prm z0 z1 p bz x y step st j) = prev_yaxis st.
Proof.
  destruct (Rle_lt_dec (clear_span_of prm z0 p x step j) eps) as [H1 | H1].
  { rewrite bay_skip by auto. apply prev_append_mullion. }
  destruct (Rle_lt_dec (clear_width_of prm (clear_span_of prm z0 p x step j)) eps)
    as [H2 | H2].
  { rewrite bay_skip by auto. apply prev_append_mullion. }
  destruct (Rle_lt_dec (clear_height_of prm) eps) as [H3 | H3].
  { rewrite bay_skip by auto. apply prev_append_mullion. }
  rewrite bay_full by assumption.
  rewrite prev_append_glass, !prev_append_mullion. reflexivity.
Qed.

Lemma bays_prev prm z0 z1 p bz x y step js st :
  prev_yaxis (fold_left (bay extrudes prm z0 z1 p bz x y step) js st) = prev_yaxis st.
Proof.
  revert st. induction js as [| j js IH]; intro st; simpl; [reflexivity |].
  rewrite IH. apply bay_prev.
Qed.

(** C7: a segment no longer than [eps] leaves the whole loop state as it
    was and raises nothing; a guide of two coincident points gives two empty
    collections, whatever the parameters. *)
Theorem C7_degenerate_segment_is_skipped :
  (forall prm pl z0 z1 st i,
      seg_len_of pl i <= eps -> segment extrudes prm pl z0 z1 st i = Ok st)
  /\ (forall prm g c p,
         coercecurve g = Some c -> TryGetPolyline c = Some [p; p] ->
         wall prm g = Ok ([], [])).
Proof.
  split.
  - intros. apply segment_skip. assumption.
  - intros prm g c p Hc Hp. unfold curtain_wall, _coerce_polyline.
    rewrite Hc, Hp. simpl.
    rewrite for_each_unchanged; [reflexivity |].
    intro s. unfold story. simpl.
    rewrite segment_skip; [reflexivity |].
    unfold seg_len_of, item. simpl. rewrite psub_self. pose proof eps_pos. lra.
Qed.

(** C2: after a segment that is not skipped the stored lateral axis is the
    candidate, reversed exactly when a previous axis exists and its dot
    product with the candidate is negative, so its dot product with the
    previous axis is never negative; the candidate is the unit cross product
    of world Z with the forward axis, or world Y when that product is tiny. *)
Theorem C2_lateral_axis_continuity :
  (forall prm pl z0 z1 st i st',
      segment extrudes prm pl z0 z1 st i = Ok st' ->
      eps < seg_len_of pl i ->
      prev_yaxis st' = Some (yaxis_of (prev_yaxis st) pl i)
      /\ forall p, prev_yaxis st = Some p ->
                   0 <= Multiply p (yaxis_of (prev_yaxis st) pl i))
  /\ (forall prev c,
         ((exists p, prev = Some p /\ Multiply c p < 0)
          /\ keep_consistent prev c = Reverse c)
         \/ (~ (exists p, prev = Some p /\ Multiply c p < 0)
             /\ keep_consistent prev c = c))
  /\ (forall x,
         (IsTiny (CrossProduct Vector3d_ZAxis x) = true ->
          candidate_yaxis x = Vector3d_YAxis)
         /\ (IsTiny (CrossProduct Vector3d_ZAxis x) = false ->
             candidate_yaxis x = Unitize (CrossProduct Vector3d_ZAxis x))).
Proof.
  split; [| split].
  - intros prm pl z0 z1 st i st' Hrun Hlen.
    split.
    + unfold segment in Hrun. cbv zeta in Hrun. fold (seg_len_of pl i) in Hrun.
      rewrite (Rleb_false _ _ Hlen) in Hrun.
      destruct (panel_count_of (seg_len_of pl i) (mullion_spacing_mm prm)) as [n | e];
        simpl in Hrun; [| discriminate].
      inversion Hrun; subst st'.
      rewrite prev_append_mullion, bays_prev. reflexivity.
    + intros p Hp. rewrite Hp. unfold yaxis_of. apply keep_consistent_dot.
  - intros prev c. destruct prev as [p |]; simpl.
    + unfold Rltb. destruct (Rlt_dec (Multiply c p) 0) as [Hneg | Hpos].
      * left. split; [exists p; auto | reflexivity].
      * right. split; [| reflexivity].
        intros (q & Hq & Hlt). inversion Hq; subst. contradiction.
    + right. split; [| reflexivity]. intros (q & Hq & _). discriminate.
  - intro x. unfold candidate_yaxis. cbv zeta. split; intro H; rewrite H.
    + apply Unitize_YAxis.
    + reflexivity.
Qed.

(** C3: for a positive length and a positive spacing the bay count is
    [max(1, floor(length / spacing))] and the bay width is the length divided
    by it, so width times count is the length; a spacing above the length
    gives one bay of the full length, and a length above the spacing gives
    [floor(length / spacing)] bays, at least one. *)
Theorem C3_bay_subdivision (len spacing : R) :
  0 < len -> 0 < spacing ->
  exists n : Z,
    panel_count_of len spacing = Ok n
    /\ n = Z.max 1 (Int_part (len / spacing))
    /\ step_of len n = len / IZR n
    /\ step_of len n * IZR n = len
    /\ (len < spacing -> n = 1%Z /\ step_of len n = len)
    /\ (spacing < len -> n = Int_part (len / spacing) /\ (1 <= n)%Z).
Proof.
  intros Hlen Hsp.
  exists (Z.max 1 (Int_part (len / spacing))).
  assert (Hn : 1 <= IZR (Z.max 1 (Int_part (len / spacing)))).
  { apply IZR_le. lia. }
  split; [apply panel_count_of_ok; lra |].
  split; [reflexivity |].
  split; [reflexivity |].
  split; [unfold step_of; field; lra |].
  split.
  - intro Hlt.
    assert (Hq : Int_part (len / spacing) = 0%Z).
    { apply Int_part_unique. split.
      - apply Rlt_le, Rdiv_lt_0_compat; assumption.
      - apply Rmult_lt_reg_r with spacing; [assumption |].
        unfold Rdiv. rewrite Rmult_assoc, Rinv_l by lra. lra. }
    rewrite Hq. change (Z.max 1 0) with 1%Z.
    split; [reflexivity |]. unfold step_of. lra.
  - intro Hlt.
    assert (Hq : 1 < len / spacing).
    { apply Rmult_lt_reg_r with spacing; [assumption |].
      unfold Rdiv. rewrite Rmult_assoc, Rinv_l by lra. lra. }
    destruct (base_Int_part (len / spacing)) as [_ Hfl].
    assert (Hpos : (0 < Int_part (len / spacing))%Z).
    { apply lt_IZR. lra. }
    split; lia.
Qed.

Lemma box_brep_built plane sx sy h :
  extrudes (_centered_rect_curve plane sx sy) h = true ->
  _box_brep extrudes plane sx sy h = Some (box plane sx sy h).
Proof.
  intro H. unfold _box_brep, Extrusion_Create. cbv zeta. rewrite H. reflexivity.
Qed.

Lemma box_brep_total :
  (forall r h, extrudes r h = true) ->
  forall plane sx sy h, _box_brep extrudes plane sx sy h = Some (box plane sx sy h).
Proof. intros H plane sx sy h. apply box_brep_built, H. Qed.

Lemma bays_bare prm z0 z1 p bz x y step js st :
  clear_height_of prm <= eps ->
  fold_left (bay extrudes prm z0 z1 p bz x y step) js st
  = mkState (prev_yaxis st)
            (breps_mullions st
             ++ flat_map (fun j => appended (mullion_at extrudes prm
                                               (base_pt_of z0 p x step j) x y)) js)
            (breps_glass st).
Proof.
  intro H. revert st. induction js as [| j js IH]; intro st; simpl.
  - rewrite app_nil_r. destruct st; reflexivity.
  - rewrite IH, bay_skip by auto. rewrite append_mullion_eq. simpl.
    rewrite <- app_assoc. reflexivity.
Qed.

Lemma bays_full prm z0 z1 p bz x y step js st :
  Length x = 1 ->
  eps < Rabs (step - mullion_width_mm prm) ->
  eps < Rabs (step - mullion_width_mm prm) - 2.0 * glass_gap_mm prm ->
  eps < clear_height_of prm ->
  fold_left (bay extrudes prm z0 z1 p bz x y step) js st
  = mkState (prev_yaxis st)
            (breps_mullions st
             ++ flat_map (bay_framing extrudes prm z0 z1 p bz x y step) js)
            (breps_glass st
             ++ flat_map (bay_glazing extrudes prm z0 p bz x y step) js).
Proof.
  intros Hx H1 H2 H3. revert st. induction js as [| j js IH]; intro st; simpl.
  - rewrite !app_nil_r. destruct st; reflexivity.
  - rewrite IH, bay_full; try assumption.
    + rewrite append_glass_eq, !append_mullion_eq. simpl.
      unfold bay_framing, bay_glazing. rewrite <- !app_assoc. reflexivity.
    + rewrite clear_span_unit; assumption.
    + unfold clear_width_of. rewrite clear_span_unit; assumption.
Qed.

Lemma xaxis_unit pl i : eps < seg_len_of pl i -> Length (xaxis_of pl i) = 1.
Proof.
  intro H. apply Length_Unitize. unfold seg_len_of in H. pose proof eps_pos. lra.
Qed.

Lemma segment_regular prm pl z0 z1 st i :
  eps < seg_len_of pl i ->
  mullion_spacing_mm prm <> 0 ->
  let x := xaxis_of pl i in
  let y := yaxis_of (prev_yaxis st) pl i in
  let n := Z.max 1 (Int_part (seg_len_of pl i / mullion_spacing_mm prm)) in
  let step := step_of (seg_len_of pl i) n in
  eps < Rabs (step - mullion_width_mm prm) ->
  eps < Rabs (step - mullion_width_mm prm) - 2.0 * glass_gap_mm prm ->
  eps < clear_height_of prm ->
  segment extrudes prm pl z0 z1 st i
  = Ok (mkState
          (Some y)
          (breps_mullions st
           ++ flat_map (bay_framing extrudes prm z0 z1 (item pl i) (pZ (item pl i))
                                    x y step) (range n)
           ++ appended (mullion_at extrudes prm (raise_Z (item pl (i + 1)) z0) x y))
          (breps_glass st
           ++ flat_map (bay_glazing extrudes prm z0 (item pl i) (pZ (item pl i))
                                    x y step) (range n))).
Proof.
  intros Hlen Hsp x y n step H1 H2 H3.
  rewrite segment_run by assumption. fold x y n step.
  rewrite bays_full; try assumption; [| apply xaxis_unit; assumption].
  rewrite append_mullion_eq. simpl. rewrite <- app_assoc. reflexivity.
Qed.

(** X14: a bay whose clear width, taken as the code takes it from the length
    of the clear vector, or whose clear height is at most [eps] adds the
    bay-start mullion and nothing else, without raising; when the clear
    height is at most [eps] a whole segment adds one mullion per bay start and
    the mullion at its end, and no glass; a mullion is added whenever the
    kernel builds its extrusion. *)
Theorem X14_bay_without_clearance_adds_only_its_mullion :
  (forall prm z0 z1 p bz x y step st j,
      clear_width_of prm (clear_span_of prm z0 p x step j) <= eps
      \/ clear_height_of prm <= eps ->
      let st' := bay extrudes prm z0 z1 p bz x y step st j in
      let mull := mullion_at extrudes prm (base_pt_of z0 p x step j) x y in
      st' = append_mullion mull st
      /\ breps_glass st' = breps_glass st
      /\ breps_mullions st' = breps_mullions st ++ appended mull)
  /\ (forall prm pl z0 z1 st i,
         clear_height_of prm <= eps ->
         eps < seg_len_of pl i ->
         mullion_spacing_mm prm <> 0 ->
         let x := xaxis_of pl i in
         let y := yaxis_of (prev_yaxis st) pl i in
         let n := Z.max 1 (Int_part (seg_len_of pl i / mullion_spacing_mm prm)) in
         let step := step_of (seg_len_of pl i) n in
         exists st',
           segment extrudes prm pl z0 z1 st i = Ok st'
           /\ breps_glass st' = breps_glass st
           /\ breps_mullions st'
              = breps_mullions st
                ++ flat_map (fun j => appended (mullion_at extrudes prm
                                                  (base_pt_of z0 (item pl i) x step j) x y))
                            (range n)
                ++ appended (mullion_at extrudes prm (raise_Z (item pl (i + 1)) z0) x y))
  /\ (forall prm pt x y,
         extrudes (_centered_rect_curve (mkPlane pt x y) (mullion_width_mm prm)
                                        (mullion_depth_mm prm))
                  (story_height_mm prm) = true ->
         mullion_at extrudes prm pt x y
         = Some (box (mkPlane pt x y) (mullion_width_mm prm) (mullion_depth_mm prm)
                     (story_height_mm prm))).
Proof.
  split; [| split].
  - intros prm z0 z1 p bz x y step st j H st' mull. subst st' mull.
    rewrite bay_skip by tauto. rewrite append_mullion_eq. auto.
  - intros prm pl z0 z1 st i Hch Hlen Hsp x y n step.
    eexists. split; [apply segment_run; assumption |].
    fold x y n step. rewrite (bays_bare _ _ _ _ _ _ _ _ _ _ Hch).
    rewrite append_mullion_eq. simpl. split; [reflexivity |].
    rewrite <- app_assoc. reflexivity.
  - intros prm pt x y H. unfold mullion_at. apply box_brep_built. exact H.
Qed.

Lemma wall_4000_output (g : Guide) (c : Curve) (p q : Point3d) :
  coercecurve g = Some c ->
  TryGetPolyline c = Some [p; q] ->
  Length (psub q p) = 4000 ->
  let x := Unitize (psub q p) in
  let y := candidate_yaxis x in
  let z0 := 0 * story_height_mm defaults in
  let z1 := z0 + story_height_mm defaults in
  wall defaults g
  = Ok (flat_map (bay_framing extrudes defaults z0 z1 p (pZ p) x y 2000) [0%Z; 1%Z]
        ++ appended (mullion_at extrudes defaults (raise_Z q z0) x y),
        flat_map (bay_glazing extrudes defaults z0 p (pZ p) x y 2000) [0%Z; 1%Z]).
Proof.
  intros Hc Hp Hlen x y z0 z1.
  assert (Hn : Int_part (4000 / 1350) = 2%Z) by (apply Int_part_unique; lra).
  unfold curtain_wall, _coerce_polyline. rewrite Hc, Hp.
  change (Count [p; q] <? 2)%Z with false. cbv [bind].
  change (range (stories defaults)) with [0%Z].
  cbv [for_each bind story].
  change (range (Count [p; q] - 1)) with [0%Z].
  cbv [for_each bind].
  assert (Hsl : seg_len_of [p; q] 0 = 4000) by exact Hlen.
  assert (Hstep : step_of 4000 2 = 2000) by (unfold step_of; lra).
  pose proof (segment_regular defaults [p; q] z0 z1 (mkState None [] []) 0) as Hseg.
  rewrite Hsl in Hseg. cbv zeta in Hseg.
  change (mullion_spacing_mm defaults) with 1350 in Hseg.
  rewrite Hn in Hseg. change (Z.max 1 2) with 2%Z in Hseg. rewrite Hstep in Hseg.
  fold z0 z1. rewrite Hseg; clear Hseg.
  2-6: unfold eps, clear_height_of; cbn [mullion_width_mm glass_gap_mm story_height_mm
                                         transom_height_mm defaults];
       try rewrite Rabs_right; lra.
  reflexivity.
Qed.


End WallClaims.

(** ** The straight guide of length 4000 *)

Lemma straight_guide_length :
  Length (psub (mkPoint3d 4000 0 0) (mkPoint3d 0 0 0)) = 4000.
Proof. apply Length_eval; simpl; lra. Qed.

Lemma straight_guide_xaxis :
  Unitize (psub (mkPoint3d 4000 0 0) (mkPoint3d 0 0 0)) = mkVector3d 1 0 0.
Proof.
  rewrite (Unitize_eval _ 4000); [| lra | apply straight_guide_length].
  apply vector_eq; simpl; lra.
Qed.

Lemma candidate_east : candidate_yaxis (mkVector3d 1 0 0) = mkVector3d 0 1 0.
Proof.
  rewrite candidate_horizontal; [| reflexivity | simpl; lra].
  apply vector_eq; simpl; lra.
Qed.


(** C5: on the straight guide with the default parameters the first glass
    panel is centred 8 behind the guide line, so its face on the positive
    lateral side stands at 4 while the mullion's stands at 60: the distance
    between the two outer faces is 56 and not the glass inset of 40; it is
    the two faces on the negative lateral side that are 40 apart. *)
Theorem C5_glass_outer_face_not_inset :
  let O := mkPoint3d 0 0 0 in
  exists m fr g gl,
    wall_of defaults straight_guide = Ok (m :: fr, g :: gl)
    /\ lateral_of m = mkVector3d 0 1 0
    /\ lateral_of g = mkVector3d 0 1 0
    /\ lateral_coord (lateral_of g) O (origin_of g) = - glass_center_offset_of defaults
    /\ outer_face O m = 60
    /\ outer_face O g = 4
    /\ inner_face O m = -60
    /\ inner_face O g = -20
    /\ outer_face O m - outer_face O g <> glass_inset_mm defaults
    /\ inner_face O g - inner_face O m = glass_inset_mm defaults.
Proof.
  intro O. unfold wall_of.
  rewrite (wall_4000_output Polyline Polyline as_curve as_polyline always_extrudes
             straight_guide straight_guide (mkPoint3d 0 0 0) (mkPoint3d 4000 0 0)
             eq_refl eq_refl straight_guide_length).
  rewrite straight_guide_xaxis, candidate_east.
  cbn [flat_map].
  unfold bay_framing, bay_glazing, mullion_at, transom_at, glass_at, _panel_brep.
  cbv zeta. rewrite !(box_brep_total always_extrudes (fun _ _ => eq_refl)).
  cbn [appended app].
  do 4 eexists. split; [reflexivity |].
  unfold outer_face, inner_face, lateral_coord, lateral_of, origin_of, Multiply, box,
    _centered_rect_curve, glass_center_offset_of, mid_of, panel_start_of, panel_end_of,
    base_pt_of, next_pt_of, O.
  cbn [profile rect_plane rect_Y rect_X Origin XAxis YAxis T0 T1 vX vY vZ pX pY pZ
       psub padd pminus ppadd pscale vscale raise_Z
       mullion_width_mm mullion_depth_mm panel_thickness_mm glass_inset_mm defaults].
  repeat split; try reflexivity; lra.
Qed.

(** ** The U-shaped guide on two stories *)

Lemma candidate_north : candidate_yaxis (mkVector3d 0 1 0) = mkVector3d (-1) 0 0.
Proof.
  rewrite candidate_horizontal; [| reflexivity | simpl; lra].
  apply vector_eq; simpl; lra.
Qed.

Lemma candidate_west : candidate_yaxis (mkVector3d (-1) 0 0) = mkVector3d 0 (-1) 0.
Proof.
  rewrite candidate_horizontal; [| reflexivity | simpl; lra].
  apply vector_eq; simpl; lra.
Qed.

Lemma U_guide_index (i : Z) : (0 <= i < 3)%Z -> i = 0%Z \/ i = 1%Z \/ i = 2%Z.
Proof. lia. Qed.

Lemma U_guide_seg_len (i : Z) : (0 <= i < 3)%Z -> seg_len_of U_guide i = 2000.
Proof.
  intro H. destruct (U_guide_index i H) as [E | [E | E]]; subst i;
    apply Length_eval; simpl; lra.
Qed.

Lemma U_guide_xaxis :
  xaxis_of U_guide 0 = mkVector3d 1 0 0
  /\ xaxis_of U_guide 1 = mkVector3d 0 1 0
  /\ xaxis_of U_guide 2 = mkVector3d (-1) 0 0.
Proof.
  repeat split; unfold xaxis_of;
    (rewrite (Unitize_eval _ 2000); [| lra | apply Length_eval; simpl; lra]);
    apply vector_eq; simpl; lra.
Qed.

Lemma U_guide_yaxis (prev : option Vector3d) :
  yaxis_of prev U_guide 0 = keep_consistent prev (mkVector3d 0 1 0)
  /\ yaxis_of prev U_guide 1 = keep_consistent prev (mkVector3d (-1) 0 0)
  /\ yaxis_of prev U_guide 2 = keep_consistent prev (mkVector3d 0 (-1) 0).
Proof.
  destruct U_guide_xaxis as (H0 & H1 & H2). unfold yaxis_of.
  rewrite H0, H1, H2, candidate_east, candidate_north, candidate_west. auto.
Qed.

Lemma U_guide_segment (i : Z) (z0 z1 : R) (st : State) :
  (0 <= i < 3)%Z ->
  exists fr g,
    segment always_extrudes two_stories U_guide z0 z1 st i
    = Ok (mkState (Some (yaxis_of (prev_yaxis st) U_guide i))
                  (breps_mullions st ++ fr) (breps_glass st ++ [g]))
    /\ List.length fr = 4%nat
    /\ lateral_of g = yaxis_of (prev_yaxis st) U_guide i.
Proof.
  intro Hi.
  assert (Hn : Int_part (2000 / 1350) = 1%Z) by (apply Int_part_unique; lra).
  assert (Hstep : step_of 2000 1 = 2000) by (unfold step_of; lra).
  pose proof (segment_regular always_extrudes two_stories U_guide z0 z1 st i) as Hseg.
  rewrite (U_guide_seg_len i Hi) in Hseg. cbv zeta in Hseg.
  change (mullion_spacing_mm two_stories) with 1350 in Hseg.
  rewrite Hn in Hseg. change (Z.max 1 1) with 1%Z in Hseg. rewrite Hstep in Hseg.
  rewrite Hseg; clear Hseg.
  2-6: unfold eps, clear_height_of; cbn [mullion_width_mm glass_gap_mm story_height_mm
                                         transom_height_mm two_stories];
       try rewrite Rabs_right; lra.
  change (range 1) with [0%Z]. cbn [flat_map].
  unfold bay_framing, bay_glazing, mullion_at, transom_at, glass_at, _panel_brep.
  cbv zeta. rewrite !(box_brep_total always_extrudes (fun _ _ => eq_refl)).
  cbn [appended app].
  do 2 eexists. split; [reflexivity |]. split; reflexivity.
Qed.

Lemma keep_consistent_kept (p c : Vector3d) :
  0 <= Multiply c p -> keep_consistent (Some p) c = c.
Proof. intro H. simpl. rewrite Rltb_false by assumption. reflexivity. Qed.

Lemma keep_consistent_flipped (p c : Vector3d) :
  Multiply c p < 0 -> keep_consistent (Some p) c = Reverse c.
Proof. intro H. simpl. rewrite Rltb_true by assumption. reflexivity. Qed.

Lemma U_guide_story (s : Z) (st : State) :
  let y0 := keep_consistent (prev_yaxis st) (mkVector3d 0 1 0) in
  let y1 := keep_consistent (Some y0) (mkVector3d (-1) 0 0) in
  let y2 := keep_consistent (Some y1) (mkVector3d 0 (-1) 0) in
  exists fr g0 g1 g2,
    story always_extrudes two_stories U_guide st s
    = Ok (mkState (Some y2) (breps_mullions st ++ fr) (breps_glass st ++ [g0; g1; g2]))
    /\ List.length fr = 12%nat
    /\ map lateral_of [g0; g1; g2] = [y0; y1; y2].
Proof.
  intros y0 y1 y2. unfold story. cbv zeta.
  change (range (Count U_guide - 1)) with [0%Z; 1%Z; 2%Z].
  set (z0 := IZR s * story_height_mm two_stories).
  set (z1 := z0 + story_height_mm two_stories).
  destruct (U_guide_segment 0 z0 z1 st ltac:(lia)) as (fr0 & g0 & E0 & L0 & A0).
  destruct (U_guide_yaxis (prev_yaxis st)) as (Y0 & _ & _).
  rewrite Y0 in E0, A0. fold y0 in E0, A0.
  set (st1 := mkState (Some y0) (breps_mullions st ++ fr0) (breps_glass st ++ [g0])) in *.
  destruct (U_guide_segment 1 z0 z1 st1 ltac:(lia)) as (fr1 & g1 & E1 & L1 & A1).
  destruct (U_guide_yaxis (prev_yaxis st1)) as (_ & Y1 & _).
  rewrite Y1 in E1, A1. cbn [prev_yaxis st1] in E1, A1. fold y1 in E1, A1.
  set (st2 := mkState (Some y1) (breps_mullions st1 ++ fr1) (breps_glass st1 ++ [g1])) in *.
  destruct (U_guide_segment 2 z0 z1 st2 ltac:(lia)) as (fr2 & g2 & E2 & L2 & A2).
  destruct (U_guide_yaxis (prev_yaxis st2)) as (_ & _ & Y2).
  rewrite Y2 in E2, A2. cbn [prev_yaxis st2] in E2, A2. fold y2 in E2, A2.
  exists (fr0 ++ fr1 ++ fr2), g0, g1, g2.
  split; [| split].
  - cbn [for_each]. rewrite E0. cbn [bind]. rewrite E1. cbn [bind]. rewrite E2.
    cbn [bind]. subst st2 st1. cbn [breps_mullions breps_glass].
    rewrite <- !app_assoc. reflexivity.
  - rewrite !length_app, L0, L1, L2. reflexivity.
  - cbn [map]. rewrite A0, A1, A2. reflexivity.
Qed.

Lemma lateral_of_translate_Z (dz : R) (b : Brep Rectangle3d) :
  lateral_of (translate_Z dz b) = lateral_of b.
Proof. reflexivity. Qed.

(** C1: on the U-shaped guide with two stories the lateral axis stored by the
    last segment of story 0 is still there when story 1 starts, so the first
    segment of story 1 gets the reversed lateral axis and its glass is not the
    glass of story 0 moved up by one story height; the counts are those of
    one story twice. *)
Theorem C1_second_story_not_a_translate :
  exists fr gl,
    wall_of two_stories U_guide = Ok (fr, gl)
    /\ List.length fr = 24%nat
    /\ List.length gl = 6%nat
    /\ map lateral_of (firstn 3 gl)
       = [mkVector3d 0 1 0; mkVector3d (-1) 0 0; mkVector3d 0 (-1) 0]
    /\ map lateral_of (skipn 3 gl)
       = [Reverse (mkVector3d 0 1 0); mkVector3d (-1) 0 0; mkVector3d 0 (-1) 0]
    /\ skipn 3 gl
       <> map (translate_Z (1 * story_height_mm two_stories)) (firstn 3 gl).
Proof.
  unfold wall_of, curtain_wall, _coerce_polyline, as_curve, as_polyline.
  change (Count U_guide <? 2)%Z with false. cbv [bind].
  change (range (stories two_stories)) with [0%Z; 1%Z].
  destruct (U_guide_story 0 (mkState None [] [])) as (fr0 & a0 & a1 & a2 & E0 & L0 & A0).
  cbn [prev_yaxis] in E0, A0.
  change (keep_consistent None (mkVector3d 0 1 0)) with (mkVector3d 0 1 0) in E0, A0.
  rewrite (keep_consistent_kept (mkVector3d 0 1 0) (mkVector3d (-1) 0 0)) in E0, A0
    by (unfold Multiply; simpl; lra).
  rewrite (keep_consistent_kept (mkVector3d (-1) 0 0) (mkVector3d 0 (-1) 0)) in E0, A0
    by (unfold Multiply; simpl; lra).
  cbn [breps_mullions breps_glass app] in E0.
  set (st1 := mkState (Some (mkVector3d 0 (-1) 0)) fr0 [a0; a1; a2]) in *.
  destruct (U_guide_story 1 st1) as (fr1 & b0 & b1 & b2 & E1 & L1 & A1).
  cbn [prev_yaxis st1] in E1, A1.
  rewrite (keep_consistent_flipped (mkVector3d 0 (-1) 0) (mkVector3d 0 1 0)) in E1, A1
    by (unfold Multiply; simpl; lra).
  rewrite (keep_consistent_kept (Reverse (mkVector3d 0 1 0)) (mkVector3d (-1) 0 0))
    in E1, A1 by (unfold Multiply; simpl; lra).
  rewrite (keep_consistent_kept (mkVector3d (-1) 0 0) (mkVector3d 0 (-1) 0)) in E1, A1
    by (unfold Multiply; simpl; lra).
  cbn [for_each]. rewrite E0. cbn [bind]. rewrite E1. cbn [bind].
  subst st1. cbn [breps_mullions breps_glass app].
  do 2 eexists. split; [reflexivity |].
  split; [rewrite length_app, L0, L1; reflexivity |].
  split; [reflexivity |].
  cbn [firstn skipn].
  split; [exact A0 |]. split; [exact A1 |].
  intro Heq. apply (f_equal (map lateral_of)) in Heq.
  rewrite A1, map_map in Heq.
  rewrite (map_ext _ lateral_of (lateral_of_translate_Z _)) in Heq.
  rewrite A0 in Heq. inversion Heq. lra.
Qed.

(** ** The floor plate *)

Section FloorClaims.

Variables Boundary Curve : Type.
Variable coercecurve : Boundary -> option Curve.
Variable Translation : R -> R -> R -> Curve -> Curve.
Variable extrudes : Curve -> R -> bool.

Local Abbreviation plate := (floor_plate Boundary Curve coercecurve Translation extrudes).
Local Abbreviation slab := (_planar_slab Curve Translation extrudes).

(** For a boundary that is a curve, [floor_plate] returns the four layers
    finish, screed, insulation and structural and no other; each is
    [_planar_slab] of the boundary, the finish with the elevation and every
    next layer with the previous height less the previous thickness. *)
Lemma floor_plate_layers_of_curve (b : Boundary) (c : Curve) (elev tf ts ti tst : R) :
  coercecurve b = Some c ->
  exists layers,
    plate b elev tf ts ti tst = Ok layers
    /\ keys layers = ["finish"; "screed"; "insulation"; "structural"]%string
    /\ dict_get "finish" layers = Some (slab c elev tf)
    /\ dict_get "screed" layers = Some (slab c (elev - tf) ts)
    /\ dict_get "insulation" layers = Some (slab c (elev - tf - ts) ti)
    /\ dict_get "structural" layers = Some (slab c (elev - tf - ts - ti) tst)
    /\ (forall z t,
          slab c z t = Extrusion_Create extrudes (Translation 0 0 z c) (- t) true)
    /\ (forall z t,
          extrudes (Translation 0 0 z c) (- t) = true ->
          slab c z t = Some (mkBrep (Translation 0 0 z c) (- t) true)).
Proof.
  intro Hc. eexists. split.
  - unfold floor_plate, _coerce_curve. rewrite Hc. cbv [bind]. cbv zeta.
    reflexivity.
  - repeat split.
    intros z t H. unfold _planar_slab, Extrusion_Create. cbv zeta. rewrite H.
    reflexivity.
Qed.

End FloorClaims.

Lemma C3_witness :
  exists n : Z,
    panel_count_of 4000 1350 = Ok n
    /\ n = Z.max 1 (Int_part (4000 / 1350))
    /\ step_of 4000 n = 4000 / IZR n
    /\ step_of 4000 n * IZR n = 4000
    /\ (4000 < 1350 -> n = 1%Z /\ step_of 4000 n = 4000)
    /\ (1350 < 4000 -> n = Int_part (4000 / 1350) /\ (1 <= n)%Z).
Proof.
  apply (C3_bay_subdivision 4000 1350); lra.
Defined.

(** ** The claims at concrete inputs *)

Lemma C7_witness :
  segment always_extrudes defaults [mkPoint3d 5 7 0; mkPoint3d 5 7 0] 0 3200
          (mkState None [] []) 0%Z
  = Ok (mkState None [] [])
  /\ wall_of two_stories [mkPoint3d 5 7 0; mkPoint3d 5 7 0] = Ok ([], []).
Proof.
  destruct (C7_degenerate_segment_is_skipped Polyline Polyline as_curve as_polyline
              always_extrudes) as [Hskip Hwall].
  split.
  - apply Hskip. unfold seg_len_of, item. simpl.
    rewrite psub_self. unfold eps. lra.
  - apply (Hwall two_stories _ [mkPoint3d 5 7 0; mkPoint3d 5 7 0] (mkPoint3d 5 7 0));
      reflexivity.
Defined.

Lemma straight_guide_seg_len : seg_len_of straight_guide 0 = 4000.
Proof. exact straight_guide_length. Qed.

Lemma X14_witness :
  exists st',
    segment always_extrudes tall_transoms straight_guide 0 3200 (mkState None [] []) 0%Z
    = Ok st'
    /\ breps_glass st' = []
    /\ List.length (breps_mullions st') = 3%nat.
Proof.
  destruct (X14_bay_without_clearance_adds_only_its_mullion always_extrudes)
    as (_ & Hseg & _).
  destruct (Hseg tall_transoms straight_guide 0 3200 (mkState None [] []) 0%Z)
    as (st' & E & Hg & Hm).
  - unfold clear_height_of, eps. simpl. lra.
  - rewrite straight_guide_seg_len. unfold eps. lra.
  - simpl. lra.
  - exists st'. split; [exact E |]. split; [exact Hg |].
    rewrite Hm, straight_guide_seg_len.
    change (mullion_spacing_mm tall_transoms) with 1350.
    replace (Int_part (4000 / 1350)) with 2%Z
      by (symmetry; apply Int_part_unique; lra).
    reflexivity.
Defined.

Lemma C2_witness :
  exists st',
    segment always_extrudes two_stories U_guide 3200 6400
            (mkState (Some (mkVector3d 0 (-1) 0)) [] []) 0%Z
    = Ok st'
    /\ prev_yaxis st' = Some (Reverse (mkVector3d 0 1 0))
    /\ 0 <= Multiply (mkVector3d 0 (-1) 0) (Reverse (mkVector3d 0 1 0)).
Proof.
  destruct (C2_lateral_axis_continuity always_extrudes) as (Hstep & _ & _).
  destruct (U_guide_segment 0 3200 6400 (mkState (Some (mkVector3d 0 (-1) 0)) [] []))
    as (fr & g & E & _ & _); [lia |].
  destruct (Hstep two_stories U_guide 3200 6400 _ 0%Z _ E) as [Hprev Hdot].
  - rewrite U_guide_seg_len by lia. unfold eps. lra.
  - destruct (U_guide_yaxis (Some (mkVector3d 0 (-1) 0))) as (Y0 & _ & _).
    change (prev_yaxis (mkState (Some (mkVector3d 0 (-1) 0)) [] []))
      with (Some (mkVector3d 0 (-1) 0)) in Hprev, Hdot, E.
    rewrite Y0 in Hprev, Hdot, E.
    rewrite keep_consistent_flipped in Hprev, Hdot, E by (unfold Multiply; simpl; lra).
    eexists. split; [exact E |]. split; [exact Hprev |].
    apply Hdot. reflexivity.
Defined.

(** * Further properties of the generators *)

(** ** Errors of the traversal *)

Lemma In_range (n i : Z) : In i (range n) <-> (0 <= i < n)%Z.
Proof.
  unfold range. rewrite in_map_iff. split.
  - intros (k & Hk & Hin). apply in_seq in Hin. lia.
  - intro H. exists (Z.to_nat i). split; [lia |]. apply in_seq. lia.
Qed.

Lemma range_pos (n : Z) : (1 <= n)%Z -> exists rest, range n = 0%Z :: rest.
Proof.
  intro H. unfold range.
  destruct (Z.to_nat n) as [| k] eqn:E; [lia |].
  simpl. eexists. reflexivity.
Qed.

Lemma range_nonpos (n : Z) : (n <= 0)%Z -> range n = [].
Proof.
  intro H. unfold range. replace (Z.to_nat n) with 0%nat by lia. reflexivity.
Qed.

Lemma for_each_returns {S I : Type} (body : S -> I -> result S) (xs : list I) :
  (forall st x, exists st', body st x = Ok st') ->
  forall st, exists st', for_each body xs st = Ok st'.
Proof.
  intro H. induction xs as [| x xs IH]; intro st; simpl.
  - eexists. reflexivity.
  - destruct (H st x) as (st1 & E). rewrite E. simpl. apply IH.
Qed.

Lemma for_each_raises {S I : Type} (body : S -> I -> result S) (e : PyError)
      (xs : list I) (st : S) :
  (forall x, In x xs -> body st x = Ok st \/ body st x = Raise e) ->
  (exists x, In x xs /\ body st x = Raise e) ->
  for_each body xs st = Raise e.
Proof.
  induction xs as [| x xs IH]; intros Hall (y & Hin & Hy); [destruct Hin |].
  simpl. destruct (Hall x (or_introl eq_refl)) as [E | E]; rewrite E; simpl;
    [| reflexivity].
  apply IH.
  - intros z Hz. apply Hall. right. exact Hz.
  - destruct Hin as [-> | Hin]; [congruence |]. exists y. auto.
Qed.

Section WallErrors.

Variables Guide Curve : Type.
Variable coercecurve : Guide -> option Curve.
Variable TryGetPolyline : Curve -> option Polyline.
Variable extrudes : Rectangle3d -> R -> bool.

Local Abbreviation wall :=
  (curtain_wall Guide Curve coercecurve TryGetPolyline extrudes).

Lemma coerce_resolved (g : Guide) (c : Curve) (pl : Polyline) :
  coercecurve g = Some c -> TryGetPolyline c = Some pl -> (2 <= Count pl)%Z ->
  _coerce_polyline Guide Curve coercecurve TryGetPolyline g = Ok pl.
Proof.
  intros Hc Hp Hn. unfold _coerce_polyline. rewrite Hc, Hp.
  destruct (Z.ltb_spec (Count pl) 2); [lia | reflexivity].
Qed.

Lemma segment_returns prm pl z0 z1 st i :
  mullion_spacing_mm prm <> 0 ->
  exists st', segment extrudes prm pl z0 z1 st i = Ok st'.
Proof.
  intro Hs. destruct (Rle_lt_dec (seg_len_of pl i) eps) as [H | H].
  - exists st. apply segment_skip. exact H.
  - eexists. apply segment_run; assumption.
Qed.

Lemma segment_zero_spacing prm pl z0 z1 st i :
  mullion_spacing_mm prm = 0 ->
  eps < seg_len_of pl i ->
  segment extrudes prm pl z0 z1 st i
  = Raise (ZeroDivisionError "float floor division by zero").
Proof.
  intros Hs H. unfold segment. cbv zeta. fold (seg_len_of pl i).
  rewrite (Rleb_false _ _ H). unfold panel_count_of, floordiv.
  rewrite Hs, Reqb_true by reflexivity. reflexivity.
Qed.


(** X2: with no story to build ([stories <= 0]), or with no segment of the
    guide longer than [eps], [curtain_wall] returns two empty collections,
    whatever the other parameters, a zero spacing included. *)
Theorem X2_nothing_to_build (prm : Params) (g : Guide) (c : Curve) (pl : Polyline) :
  coercecurve g = Some c ->
  TryGetPolyline c = Some pl ->
  (2 <= Count pl)%Z ->
  (stories prm <= 0)%Z
  \/ (forall i, (0 <= i < Count pl - 1)%Z -> seg_len_of pl i <= eps) ->
  wall prm g = Ok ([], []).
Proof.
  intros Hc Hp Hn H. unfold curtain_wall.
  rewrite (coerce_resolved g c pl Hc Hp Hn). cbv [bind].
  destruct H as [H | H].
  - rewrite (range_nonpos _ H). reflexivity.
  - rewrite for_each_unchanged; [reflexivity |].
    intro s. unfold story.
    set (z0 := IZR s * story_height_mm prm).
    generalize (z0 + story_height_mm prm). intro z1.
    assert (Hall : forall i, In i (range (Count pl - 1)) -> seg_len_of pl i <= eps).
    { intros i Hi. apply H, In_range, Hi. }
    induction (range (Count pl - 1)) as [| i rest IH]; [reflexivity |].
    cbn [for_each]. rewrite segment_skip by (apply Hall; left; reflexivity).
    cbn [bind]. apply IH. intros k Hk. apply Hall. right. exact Hk.
Qed.

End WallErrors.

(** ** The local frame of a segment *)

Lemma ZeroTolerance_pos : 0 < ZeroTolerance.
Proof. unfold ZeroTolerance. lra. Qed.

Lemma IsTiny_true_inv (v : Vector3d) :
  IsTiny v = true ->
  Rabs (vX v) <= ZeroTolerance /\ Rabs (vY v) <= ZeroTolerance
  /\ Rabs (vZ v) <= ZeroTolerance.
Proof.
  unfold IsTiny. intro H.
  apply andb_true_iff in H as [H Hz]. apply andb_true_iff in H as [Hx Hy].
  rewrite !Rleb_spec in *. auto.
Qed.

Lemma IsTiny_false_inv (v : Vector3d) :
  IsTiny v = false ->
  ZeroTolerance < Rabs (vX v) \/ ZeroTolerance < Rabs (vY v)
  \/ ZeroTolerance < Rabs (vZ v).
Proof.
  unfold IsTiny. intro H.
  destruct (Rle_lt_dec (Rabs (vX v)) ZeroTolerance) as [Hx | Hx]; [| auto].
  destruct (Rle_lt_dec (Rabs (vY v)) ZeroTolerance) as [Hy | Hy]; [| auto].
  destruct (Rle_lt_dec (Rabs (vZ v)) ZeroTolerance) as [Hz | Hz]; [| auto].
  rewrite !Rleb_true in H by assumption. discriminate.
Qed.

Lemma Rabs_pos_nonzero (a : R) : 0 < Rabs a -> a <> 0.
Proof. intros H E. subst a. rewrite Rabs_R0 in H. lra. Qed.

Lemma Length_pos (v : Vector3d) :
  vX v <> 0 \/ vY v <> 0 \/ vZ v <> 0 -> 0 < Length v.
Proof.
  intro H. pose proof (Length_nonneg v) as Hn. pose proof (Length_sqr v) as Hs.
  destruct (Req_dec (Length v) 0) as [E | E]; [| lra].
  rewrite E in Hs. exfalso.
  assert (Hx : 0 <= vX v * vX v) by nra.
  assert (Hy : 0 <= vY v * vY v) by nra.
  assert (Hz : 0 <= vZ v * vZ v) by nra.
  destruct H as [H | [H | H]]; apply H; nra.
Qed.

Lemma Length_Reverse (v : Vector3d) : Length (Reverse v) = Length v.
Proof. unfold Length. simpl. f_equal. ring. Qed.

Lemma Multiply_Reverse_r (a b : Vector3d) : Multiply a (Reverse b) = - Multiply a b.
Proof. unfold Multiply. simpl. ring. Qed.

Lemma keep_consistent_cases (prev : option Vector3d) (c : Vector3d) :
  keep_consistent prev c = c \/ keep_consistent prev c = Reverse c.
Proof.
  destruct prev as [p |]; simpl; [| auto].
  destruct (Rltb (Multiply c p) 0); auto.
Qed.

Lemma cross_up_length_pos (x : Vector3d) :
  IsTiny (CrossProduct Vector3d_ZAxis x) = false ->
  0 < Length (CrossProduct Vector3d_ZAxis x).
Proof.
  intro H. apply IsTiny_false_inv in H. pose proof ZeroTolerance_pos as Ht.
  apply Length_pos.
  destruct H as [H | [H | H]]; [left | right; left | right; right];
    apply Rabs_pos_nonzero; lra.
Qed.

Lemma candidate_facts (x : Vector3d) :
  let y := candidate_yaxis x in
  Length y = 1 /\ vZ y = 0 /\ Rabs (Multiply x y) <= ZeroTolerance
  /\ (IsTiny (CrossProduct Vector3d_ZAxis x) = false -> Multiply x y = 0).
Proof.
  unfold candidate_yaxis. cbv zeta.
  destruct (IsTiny (CrossProduct Vector3d_ZAxis x)) eqn:E.
  - rewrite Unitize_YAxis.
    split; [apply Length_eval; simpl; lra |]. split; [reflexivity |].
    split; [| discriminate].
    apply IsTiny_true_inv in E as (Hx & _ & _). simpl in Hx.
    unfold Multiply. simpl.
    replace (vX x * 0 + vY x * 1 + vZ x * 0) with (- (0 * vZ x - 1 * vY x)) by ring.
    rewrite Rabs_Ropp. exact Hx.
  - pose proof (cross_up_length_pos x E) as Hl.
    split; [apply Length_Unitize; exact Hl |].
    rewrite (Unitize_eval _ _ Hl eq_refl).
    set (l := Length (CrossProduct Vector3d_ZAxis x)) in *.
    assert (Hz : vZ (mkVector3d (vX (CrossProduct Vector3d_ZAxis x) / l)
                               (vY (CrossProduct Vector3d_ZAxis x) / l)
                               (vZ (CrossProduct Vector3d_ZAxis x) / l)) = 0)
      by (simpl; field; lra).
    assert (Hd : Multiply x (mkVector3d (vX (CrossProduct Vector3d_ZAxis x) / l)
                                        (vY (CrossProduct Vector3d_ZAxis x) / l)
                                        (vZ (CrossProduct Vector3d_ZAxis x) / l)) = 0)
      by (unfold Multiply; simpl; field; lra).
    split; [exact Hz |]. split; [| intros _; exact Hd].
    rewrite Hd, Rabs_R0. apply Rlt_le, ZeroTolerance_pos.
Qed.

(** X3: on a segment longer than [eps] the forward axis has length 1, and the
    lateral axis given to the segment, reversed or not, has length 1, is
    horizontal and is orthogonal to the forward axis, exactly when the cross
    product with world Z is not tiny and within [ZeroTolerance] when world Y
    is used instead. *)
Theorem X3_frame_is_orthonormal (pl : Polyline) (i : Z) (prev : option Vector3d) :
  eps < seg_len_of pl i ->
  let x := xaxis_of pl i in
  let y := yaxis_of prev pl i in
  Length x = 1
  /\ Length y = 1
  /\ vZ y = 0
  /\ Rabs (Multiply x y) <= ZeroTolerance
  /\ (IsTiny (CrossProduct Vector3d_ZAxis x) = false -> Multiply x y = 0).
Proof.
  intros Hlen x y. split; [apply xaxis_unit; exact Hlen |].
  destruct (candidate_facts x) as (Hl & Hz & Hd & Hd0).
  subst y. unfold yaxis_of. fold x.
  destruct (keep_consistent_cases prev (candidate_yaxis x)) as [E | E]; rewrite E.
  - auto.
  - rewrite Length_Reverse, Multiply_Reverse_r, Rabs_Ropp.
    repeat split; try assumption.
    + simpl. rewrite Hz. ring.
    + intro H. rewrite (Hd0 H). ring.
Qed.

Lemma X3_witness :
  let x := xaxis_of U_guide 1 in
  let y := yaxis_of (Some (mkVector3d 0 1 0)) U_guide 1 in
  Length x = 1
  /\ Length y = 1
  /\ vZ y = 0
  /\ Rabs (Multiply x y) <= ZeroTolerance
  /\ (IsTiny (CrossProduct Vector3d_ZAxis x) = false -> Multiply x y = 0).
Proof.
  apply (X3_frame_is_orthonormal U_guide 1 (Some (mkVector3d 0 1 0))).
  rewrite U_guide_seg_len by lia. unfold eps. lra.
Defined.

(** X4: when the cross product of world Z with the forward axis is not tiny,
    the normal of the frame made of the forward axis and the candidate lateral
    axis points up (positive Z), and the normal of the frame with the reversed
    lateral axis points down: reversing the lateral axis for continuity turns
    the frame upside down. *)
Theorem X4_reversed_axis_flips_the_normal (x : Vector3d) :
  IsTiny (CrossProduct Vector3d_ZAxis x) = false ->
  0 < vZ (CrossProduct x (candidate_yaxis x))
  /\ vZ (CrossProduct x (Reverse (candidate_yaxis x))) < 0.
Proof.
  intro E. pose proof (cross_up_length_pos x E) as Hl.
  unfold candidate_yaxis. cbv zeta. rewrite E.
  rewrite (Unitize_eval _ _ Hl eq_refl).
  pose proof (Length_sqr (CrossProduct Vector3d_ZAxis x)) as Hs.
  set (l := Length (CrossProduct Vector3d_ZAxis x)) in *.
  simpl in Hs. simpl.
  assert (Hv : vX x * ((1 * vX x - 0 * vZ x) / l) - vY x * ((0 * vZ x - 1 * vY x) / l)
               = l).
  { transitivity ((l * l) / l); [rewrite Hs; field; lra | field; lra]. }
  split; [lra |].
  replace (vX x * - ((1 * vX x - 0 * vZ x) / l) - vY x * - ((0 * vZ x - 1 * vY x) / l))
    with (- (vX x * ((1 * vX x - 0 * vZ x) / l) - vY x * ((0 * vZ x - 1 * vY x) / l)))
    by ring.
  lra.
Qed.

Lemma X4_witness :
  0 < vZ (CrossProduct (mkVector3d 1 0 0) (candidate_yaxis (mkVector3d 1 0 0)))
  /\ vZ (CrossProduct (mkVector3d 1 0 0) (Reverse (candidate_yaxis (mkVector3d 1 0 0))))
     < 0.
Proof.
  apply (X4_reversed_axis_flips_the_normal (mkVector3d 1 0 0)).
  apply IsTiny_false. right. left. simpl.
  replace (1 * 1 - 0 * 0) with 1 by lra. rewrite Rabs_R1.
  unfold ZeroTolerance. lra.
Defined.

(** ** Bays along a segment *)

(** X5: on a segment longer than [eps] cut into [n >= 1] bays, the first bay
    starts on the segment's start point, every bay ends where the next one
    starts, and the last bay ends on the segment's end point, where the
    end-of-segment mullion stands (all raised by the story offset). *)
Theorem X5_bays_tile_the_segment (pl : Polyline) (i n : Z) (z0 : R) :
  eps < seg_len_of pl i ->
  (1 <= n)%Z ->
  let p := item pl i in
  let q := item pl (i + 1) in
  let x := xaxis_of pl i in
  let step := step_of (seg_len_of pl i) n in
  base_pt_of z0 p x step 0 = raise_Z p z0
  /\ (forall j, next_pt_of z0 p x step j = base_pt_of z0 p x step (j + 1))
  /\ next_pt_of z0 p x step (n - 1) = raise_Z q z0.
Proof.
  intros Hlen Hn p q x step. pose proof eps_pos as He.
  assert (Hn' : 1 <= IZR n) by (apply IZR_le; exact Hn).
  split; [| split].
  - apply point_eq; simpl; lra.
  - intro j. unfold next_pt_of, base_pt_of. rewrite plus_IZR. reflexivity.
  - subst x step. unfold xaxis_of, step_of. fold p q.
    unfold seg_len_of in *. fold p q in Hlen |- *.
    set (l := Length (psub q p)) in *.
    rewrite (Unitize_eval (psub q p) l) by (subst l; auto; lra).
    unfold next_pt_of. rewrite minus_IZR.
    apply point_eq; simpl; field; lra.
Qed.

Lemma X5_witness :
  let p := item straight_guide 0 in
  let q := item straight_guide (0 + 1) in
  let x := xaxis_of straight_guide 0 in
  let step := step_of (seg_len_of straight_guide 0) 2 in
  base_pt_of 3200 p x step 0 = raise_Z p 3200
  /\ (forall j, next_pt_of 3200 p x step j = base_pt_of 3200 p x step (j + 1))
  /\ next_pt_of 3200 p x step (2 - 1) = raise_Z q 3200.
Proof.
  apply (X5_bays_tile_the_segment straight_guide 0 2 3200).
  - rewrite straight_guide_seg_len. unfold eps. lra.
  - lia.
Defined.

Section BayGeometry.

Variable extrudes : Rectangle3d -> R -> bool.
Variable prm : Params.

Lemma clear_dir_forward z0 p x step j :
  Length x = 1 -> mullion_width_mm prm < step ->
  Unitize (clear_vec_of prm z0 p x step j) = x.
Proof.
  intros Hx Hs. rewrite clear_vec_scaled.
  rewrite (Unitize_eval _ (step - mullion_width_mm prm)).
  - apply vector_eq; simpl; field; lra.
  - lra.
  - rewrite Length_vscale, Hx, Rabs_right by lra. ring.
Qed.

Lemma clear_dir_backward z0 p x step j :
  Length x = 1 -> step < mullion_width_mm prm ->
  Unitize (clear_vec_of prm z0 p x step j) = Reverse x.
Proof.
  intros Hx Hs. rewrite clear_vec_scaled.
  rewrite (Unitize_eval _ (mullion_width_mm prm - step)).
  - apply vector_eq; simpl; field; lra.
  - lra.
  - rewrite Length_vscale, Hx, Rabs_left by lra. ring.
Qed.

(** X6: the clear span is a length, the absolute value of the bay width minus
    the mullion width.  A bay narrower than its mullion is therefore not
    skipped: when the excess of the mullion over the bay leaves room for the
    glass gaps, the bay gets its two transoms and its glass, laid along the
    reversed forward axis. *)
Theorem X6_bay_narrower_than_mullion z0 z1 p bz x y step st j :
  Length x = 1 ->
  step < mullion_width_mm prm ->
  eps < mullion_width_mm prm - step ->
  eps < mullion_width_mm prm - step - 2.0 * glass_gap_mm prm ->
  eps < clear_height_of prm ->
  clear_span_of prm z0 p x step j = mullion_width_mm prm - step
  /\ Unitize (clear_vec_of prm z0 p x step j) = Reverse x
  /\ bay extrudes prm z0 z1 p bz x y step st j
     = append_glass
         (glass_at extrudes prm (bz + z0 + transom_height_mm prm + glass_gap_mm prm)
                   z0 p x y step j)
         (append_mullion
            (transom_at extrudes prm (bz + z1 - transom_height_mm prm) z0 p x y step j)
            (append_mullion
               (transom_at extrudes prm (bz + z0) z0 p x y step j)
               (append_mullion
                  (mullion_at extrudes prm (base_pt_of z0 p x step j) x y) st))).
Proof.
  intros Hx Hs H1 H2 H3.
  assert (Hcs : clear_span_of prm z0 p x step j = mullion_width_mm prm - step).
  { rewrite clear_span_unit by exact Hx. rewrite Rabs_left by lra. ring. }
  split; [exact Hcs |]. split; [apply clear_dir_backward; assumption |].
  apply bay_full.
  - rewrite Hcs. exact H1.
  - unfold clear_width_of. rewrite Hcs. exact H2.
  - exact H3.
Qed.

End BayGeometry.

Lemma X6_witness :
  let x := mkVector3d 1 0 0 in
  let y := mkVector3d 0 1 0 in
  let p := mkPoint3d 0 0 0 in
  let st := mkState None [] [] in
  clear_span_of wide_mullions 0 p x 100 0 = mullion_width_mm wide_mullions - 100
  /\ Unitize (clear_vec_of wide_mullions 0 p x 100 0) = Reverse x
  /\ bay always_extrudes wide_mullions 0 3200 p 0 x y 100 st 0
     = append_glass
         (glass_at always_extrudes wide_mullions
                   (0 + 0 + transom_height_mm wide_mullions + glass_gap_mm wide_mullions)
                   0 p x y 100 0)
         (append_mullion
            (transom_at always_extrudes wide_mullions
                        (0 + 3200 - transom_height_mm wide_mullions) 0 p x y 100 0)
            (append_mullion
               (transom_at always_extrudes wide_mullions (0 + 0) 0 p x y 100 0)
               (append_mullion
                  (mullion_at always_extrudes wide_mullions (base_pt_of 0 p x 100 0) x y)
                  st))).
Proof.
  apply (X6_bay_narrower_than_mullion always_extrudes wide_mullions 0 3200
           (mkPoint3d 0 0 0) 0 (mkVector3d 1 0 0) (mkVector3d 0 1 0) 100
           (mkState None [] []) 0%Z).
  - apply Length_eval; simpl; lra.
  - simpl. lra.
  - unfold eps. simpl. lra.
  - unfold eps. simpl. lra.
  - unfold eps, clear_height_of. simpl. lra.
Defined.


(** ** How many solids a segment and a story add *)

Lemma length_flat_map_const {A B : Type} (f : A -> list B) (k : nat) (xs : list A) :
  (forall x, List.length (f x) = k) ->
  List.length (flat_map f xs) = (k * List.length xs)%nat.
Proof.
  intro H. induction xs as [| x xs IH]; simpl; [lia |].
  rewrite length_app, H, IH. lia.
Qed.

Lemma length_range (n : Z) : List.length (range n) = Z.to_nat n.
Proof. unfold range. rewrite length_map, length_seq. reflexivity. Qed.

Section SegmentCounts.

Variable extrudes : Rectangle3d -> R -> bool.
Hypothesis extrudes_all : forall r h, extrudes r h = true.
Variable prm : Params.

Lemma bays_unglazed z0 z1 p bz x y step js st :
  Length x = 1 ->
  Rabs (step - mullion_width_mm prm) <= eps
  \/ Rabs (step - mullion_width_mm prm) - 2.0 * glass_gap_mm prm <= eps
  \/ clear_height_of prm <= eps ->
  fold_left (bay extrudes prm z0 z1 p bz x y step) js st
  = mkState (prev_yaxis st)
            (breps_mullions st
             ++ flat_map (fun j => appended (mullion_at extrudes prm
                                               (base_pt_of z0 p x step j) x y)) js)
            (breps_glass st).
Proof.
  intros Hx H. revert st. induction js as [| j js IH]; intro st; simpl.
  - rewrite app_nil_r. destruct st; reflexivity.
  - rewrite IH, bay_skip.
    + rewrite append_mullion_eq. simpl. rewrite <- app_assoc. reflexivity.
    + unfold clear_width_of. rewrite clear_span_unit by exact Hx. exact H.
Qed.

Lemma bay_framing_length z0 z1 p bz x y step j :
  List.length (bay_framing extrudes prm z0 z1 p bz x y step j) = 3%nat.
Proof.
  unfold bay_framing, mullion_at, transom_at. cbv zeta.
  rewrite !(box_brep_total extrudes extrudes_all). reflexivity.
Qed.

Lemma bay_glazing_length z0 p bz x y step j :
  List.length (bay_glazing extrudes prm z0 p bz x y step j) = 1%nat.
Proof.
  unfold bay_glazing, glass_at, _panel_brep. cbv zeta.
  rewrite !(box_brep_total extrudes extrudes_all). reflexivity.
Qed.

Lemma mullion_at_length pt x y :
  List.length (appended (mullion_at extrudes prm pt x y)) = 1%nat.
Proof.
  unfold mullion_at. rewrite (box_brep_total extrudes extrudes_all). reflexivity.
Qed.

Lemma segment_adds pl z0 z1 st i :
  eps < seg_len_of pl i ->
  mullion_spacing_mm prm <> 0 ->
  let n := Z.to_nat (Z.max 1 (Int_part (seg_len_of pl i / mullion_spacing_mm prm))) in
  let step := step_of (seg_len_of pl i) (Z.of_nat n) in
  let glazed :=
    eps < Rabs (step - mullion_width_mm prm)
    /\ eps < Rabs (step - mullion_width_mm prm) - 2.0 * glass_gap_mm prm
    /\ eps < clear_height_of prm in
  exists st',
    segment extrudes prm pl z0 z1 st i = Ok st'
    /\ ((glazed
         /\ List.length (breps_mullions st')
            = (List.length (breps_mullions st) + (3 * n + 1))%nat
         /\ List.length (breps_glass st') = (List.length (breps_glass st) + n)%nat)
        \/ (~ glazed
            /\ List.length (breps_mullions st')
               = (List.length (breps_mullions st) + (n + 1))%nat
            /\ List.length (breps_glass st') = List.length (breps_glass st))).
Proof.
  intros Hlen Hsp. cbv zeta. rewrite Z2Nat.id by lia.
  set (m := Z.max 1 (Int_part (seg_len_of pl i / mullion_spacing_mm prm))).
  set (n := Z.to_nat m).
  set (step := step_of (seg_len_of pl i) m).
  set (glazed := eps < Rabs (step - mullion_width_mm prm)
                 /\ eps < Rabs (step - mullion_width_mm prm) - 2.0 * glass_gap_mm prm
                 /\ eps < clear_height_of prm).
  destruct (Rle_lt_dec (Rabs (step - mullion_width_mm prm)) eps) as [H1 | H1];
    [| destruct (Rle_lt_dec (Rabs (step - mullion_width_mm prm)
                              - 2.0 * glass_gap_mm prm) eps) as [H2 | H2];
       [| destruct (Rle_lt_dec (clear_height_of prm) eps) as [H3 | H3]]].
  4: { eexists. split; [apply segment_regular; assumption |].
       left. split; [subst glazed; auto |].
       cbn [breps_mullions breps_glass]. rewrite !length_app.
       rewrite (length_flat_map_const _ 3%nat) by (intro; apply bay_framing_length).
       rewrite (length_flat_map_const _ 1%nat) by (intro; apply bay_glazing_length).
       rewrite mullion_at_length, length_range. fold m. subst n. lia. }
  all: eexists; (split; [apply segment_run; assumption |]);
    right; (split; [subst glazed; intros (G1 & G2 & G3); lra |]);
    fold m; fold step;
    rewrite bays_unglazed by (try (apply xaxis_unit; assumption); auto);
    rewrite append_mullion_eq; unfold set_prev_yaxis;
    cbn [breps_mullions breps_glass prev_yaxis];
    rewrite !length_app;
    rewrite (length_flat_map_const _ 1%nat) by (intro; apply mullion_at_length);
    rewrite mullion_at_length, length_range; subst n; split; [lia | reflexivity].
Qed.

(** X8: with every extrusion built, the bays of one segment are all alike.  A
    segment longer than [eps] has [n >= 1] bays, stores its lateral axis, and
    adds [3 n + 1] framing solids and [n] glass panels when the bay width
    leaves room for glazing, and [n + 1] framing solids and no glass
    otherwise. *)
Theorem X8_solids_added_by_a_segment pl z0 z1 st i :
  eps < seg_len_of pl i ->
  mullion_spacing_mm prm <> 0 ->
  let n := Z.to_nat (Z.max 1 (Int_part (seg_len_of pl i / mullion_spacing_mm prm))) in
  let step := step_of (seg_len_of pl i) (Z.of_nat n) in
  let glazed :=
    eps < Rabs (step - mullion_width_mm prm)
    /\ eps < Rabs (step - mullion_width_mm prm) - 2.0 * glass_gap_mm prm
    /\ eps < clear_height_of prm in
  exists st',
    segment extrudes prm pl z0 z1 st i = Ok st'
    /\ (1 <= n)%nat
    /\ prev_yaxis st' = Some (yaxis_of (prev_yaxis st) pl i)
    /\ ((glazed
         /\ List.length (breps_mullions st')
            = (List.length (breps_mullions st) + (3 * n + 1))%nat
         /\ List.length (breps_glass st') = (List.length (breps_glass st) + n)%nat)
        \/ (~ glazed
            /\ List.length (breps_mullions st')
               = (List.length (breps_mullions st) + (n + 1))%nat
            /\ List.length (breps_glass st') = List.length (breps_glass st))).
Proof.
  intros Hlen Hsp n step glazed.
  destruct (segment_adds pl z0 z1 st i Hlen Hsp) as (st' & E & Hcount).
  exists st'. split; [exact E |]. split; [subst n; lia |].
  split; [| exact Hcount].
  rewrite segment_run in E by assumption. inversion E.
  rewrite prev_append_mullion, bays_prev. reflexivity.
Qed.

End SegmentCounts.

Section StoryCounts.

Variables Guide Curve : Type.
Variable coercecurve : Guide -> option Curve.
Variable TryGetPolyline : Curve -> option Polyline.
Variable extrudes : Rectangle3d -> R -> bool.
Hypothesis extrudes_all : forall r h, extrudes r h = true.
Variable prm : Params.
Hypothesis spacing_nonzero : mullion_spacing_mm prm <> 0.

Local Abbreviation wall :=
  (curtain_wall Guide Curve coercecurve TryGetPolyline extrudes).

Lemma segment_counts pl i :
  exists a b : nat,
    forall z0 z1 st,
    exists st',
      segment extrudes prm pl z0 z1 st i = Ok st'
      /\ List.length (breps_mullions st') = (List.length (breps_mullions st) + a)%nat
      /\ List.length (breps_glass st') = (List.length (breps_glass st) + b)%nat.
Proof.
  destruct (Rle_lt_dec (seg_len_of pl i) eps) as [H | H].
  - exists 0%nat, 0%nat. intros z0 z1 st. exists st.
    split; [apply segment_skip; exact H |]. lia.
  - destruct (segment_adds extrudes extrudes_all prm pl 0 0 (mkState None [] []) i H
                spacing_nonzero) as (st0 & _ & [(G & _) | (G & _)]).
    + eexists. eexists. intros z0 z1 st.
      destruct (segment_adds extrudes extrudes_all prm pl z0 z1 st i H spacing_nonzero)
        as (st' & E & [(_ & Hm & Hg) | (G' & _)]); [| contradiction].
      exists st'. split; [exact E |]. split; [exact Hm | exact Hg].
    + eexists. exists 0%nat. intros z0 z1 st.
      destruct (segment_adds extrudes extrudes_all prm pl z0 z1 st i H spacing_nonzero)
        as (st' & E & [(G' & _) | (_ & Hm & Hg)]); [contradiction |].
      exists st'. split; [exact E |]. split; [exact Hm | lia].
Qed.

Lemma segments_counts pl (xs : list Z) :
  exists a b : nat,
    forall z0 z1 st,
    exists st',
      for_each (segment extrudes prm pl z0 z1) xs st = Ok st'
      /\ List.length (breps_mullions st') = (List.length (breps_mullions st) + a)%nat
      /\ List.length (breps_glass st') = (List.length (breps_glass st) + b)%nat.
Proof.
  induction xs as [| i xs (a & b & IH)].
  - exists 0%nat, 0%nat. intros z0 z1 st. exists st. simpl. split; [reflexivity | lia].
  - destruct (segment_counts pl i) as (a0 & b0 & H0).
    exists (a0 + a)%nat, (b0 + b)%nat. intros z0 z1 st.
    destruct (H0 z0 z1 st) as (st1 & E1 & M1 & G1).
    destruct (IH z0 z1 st1) as (st2 & E2 & M2 & G2).
    exists st2. cbn [for_each]. rewrite E1. cbn [bind].
    split; [exact E2 |]. lia.
Qed.

Lemma stories_counts pl (a b : nat) (ss : list Z) :
  (forall s st,
      exists st',
        story extrudes prm pl st s = Ok st'
        /\ List.length (breps_mullions st') = (List.length (breps_mullions st) + a)%nat
        /\ List.length (breps_glass st') = (List.length (breps_glass st) + b)%nat) ->
  forall st,
  exists st',
    for_each (story extrudes prm pl) ss st = Ok st'
    /\ List.length (breps_mullions st')
       = (List.length (breps_mullions st) + List.length ss * a)%nat
    /\ List.length (breps_glass st')
       = (List.length (breps_glass st) + List.length ss * b)%nat.
Proof.
  intro H. induction ss as [| s ss IH]; intro st.
  - exists st. simpl. split; [reflexivity | lia].
  - destruct (H s st) as (st1 & E1 & M1 & G1).
    destruct (IH st1) as (st2 & E2 & M2 & G2).
    exists st2. cbn [for_each]. rewrite E1. cbn [bind].
    split; [exact E2 |]. cbn [List.length]. lia.
Qed.

(** X9: for a resolved guide, a spacing that is not zero and every extrusion
    built, each story adds the same number of framing solids and the same
    number of glass panels, whatever the lateral axis it inherits: with
    [stories = N] the two collections hold [N] times what one story holds. *)
Theorem X9_counts_replicate_per_story (g : Guide) (c : Curve) (pl : Polyline) :
  coercecurve g = Some c ->
  TryGetPolyline c = Some pl ->
  (2 <= Count pl)%Z ->
  exists a b : nat,
    forall N : Z,
    exists fr gl,
      wall (with_stories prm N) g = Ok (fr, gl)
      /\ List.length fr = (Z.to_nat N * a)%nat
      /\ List.length gl = (Z.to_nat N * b)%nat.
Proof.
  intros Hc Hp Hn.
  destruct (segments_counts pl (range (Count pl - 1))) as (a & b & H).
  exists a, b. intro N.
  unfold curtain_wall. rewrite (coerce_resolved _ _ _ _ g c pl Hc Hp Hn). cbv [bind].
  change (story extrudes (with_stories prm N) pl) with (story extrudes prm pl).
  change (stories (with_stories prm N)) with N.
  destruct (stories_counts pl a b (range N)) with (st := mkState None [] [])
    as (st' & E & M & G).
  - intros s st. unfold story. apply H.
  - rewrite E. exists (breps_mullions st'), (breps_glass st').
    split; [reflexivity |]. rewrite M, G, length_range. simpl. lia.
Qed.

End StoryCounts.

Lemma X8_witness :
  exists st',
    segment always_extrudes defaults straight_guide 0 3200 (mkState None [] []) 0
    = Ok st'
    /\ List.length (breps_mullions st') = 7%nat
    /\ List.length (breps_glass st') = 2%nat.
Proof.
  destruct (X8_solids_added_by_a_segment always_extrudes (fun _ _ => eq_refl) defaults
              straight_guide 0 3200 (mkState None [] []) 0%Z)
    as (st' & E & _ & _ & [(_ & Hm & Hg) | (G & _)]).
  - rewrite straight_guide_seg_len. unfold eps. lra.
  - simpl. lra.
  - exists st'. split; [exact E |].
    rewrite Hm, Hg, straight_guide_seg_len.
    change (mullion_spacing_mm defaults) with 1350.
    replace (Int_part (4000 / 1350)) with 2%Z
      by (symmetry; apply Int_part_unique; lra).
    split; reflexivity.
  - exfalso. apply G. rewrite straight_guide_seg_len.
    change (mullion_spacing_mm defaults) with 1350.
    replace (Int_part (4000 / 1350)) with 2%Z
      by (symmetry; apply Int_part_unique; lra).
    change (Z.of_nat (Z.to_nat (Z.max 1 2))) with 2%Z.
    unfold step_of, clear_height_of, eps. simpl.
    replace (4000 / 2 - 60) with 1940 by lra.
    rewrite Rabs_right by lra. lra.
Defined.

Lemma X9_witness :
  exists a b : nat,
    forall N : Z,
    exists fr gl,
      wall_of (with_stories defaults N) U_guide = Ok (fr, gl)
      /\ List.length fr = (Z.to_nat N * a)%nat
      /\ List.length gl = (Z.to_nat N * b)%nat.
Proof.
  assert (Hs : mullion_spacing_mm defaults <> 0) by (simpl; lra).
  apply (X9_counts_replicate_per_story Polyline Polyline as_curve as_polyline
           always_extrudes (fun _ _ => eq_refl) defaults Hs U_guide U_guide U_guide).
  - reflexivity.
  - reflexivity.
  - unfold Count. simpl. lia.
Defined.

(** ** The collections only grow *)

Section AppendOnly.

Variables Guide Curve : Type.
Variable coercecurve : Guide -> option Curve.
Variable TryGetPolyline : Curve -> option Polyline.
Variable extrudes : Rectangle3d -> R -> bool.
Variable prm : Params.

Local Abbreviation wall :=
  (curtain_wall Guide Curve coercecurve TryGetPolyline extrudes).

Lemma bay_extends z0 z1 p bz x y step st j :
  exists fr gl,
    bay extrudes prm z0 z1 p bz x y step st j
    = mkState (prev_yaxis st) (breps_mullions st ++ fr) (breps_glass st ++ gl).
Proof.
  destruct (Rle_lt_dec (clear_span_of prm z0 p x step j) eps) as [H1 | H1];
    [| destruct (Rle_lt_dec (clear_width_of prm (clear_span_of prm z0 p x step j)) eps)
         as [H2 | H2];
       [| destruct (Rle_lt_dec (clear_height_of prm) eps) as [H3 | H3]]].
  4: { rewrite bay_full by assumption.
       rewrite append_glass_eq, !append_mullion_eq.
       cbn [prev_yaxis breps_mullions breps_glass]. rewrite <- !app_assoc.
       eexists. eexists. reflexivity. }
  all: rewrite bay_skip by auto; rewrite append_mullion_eq;
    eexists; exists []; rewrite (app_nil_r (breps_glass st)); reflexivity.
Qed.

Lemma bays_extend z0 z1 p bz x y step js st :
  exists fr gl,
    fold_left (bay extrudes prm z0 z1 p bz x y step) js st
    = mkState (prev_yaxis st) (breps_mullions st ++ fr) (breps_glass st ++ gl).
Proof.
  revert st. induction js as [| j js IH]; intro st; simpl.
  - exists [], []. rewrite !app_nil_r. destruct st; reflexivity.
  - destruct (bay_extends z0 z1 p bz x y step st j) as (fr1 & gl1 & E1).
    rewrite E1.
    destruct (IH (mkState (prev_yaxis st) (breps_mullions st ++ fr1)
                          (breps_glass st ++ gl1))) as (fr2 & gl2 & E2).
    rewrite E2. cbn [prev_yaxis breps_mullions breps_glass].
    rewrite <- !app_assoc. eexists. eexists. reflexivity.
Qed.

Lemma segment_extends pl z0 z1 st i st' :
  segment extrudes prm pl z0 z1 st i = Ok st' ->
  exists fr gl,
    breps_mullions st' = breps_mullions st ++ fr
    /\ breps_glass st' = breps_glass st ++ gl.
Proof.
  intro E. destruct (Rle_lt_dec (seg_len_of pl i) eps) as [H | H].
  - rewrite segment_skip in E by exact H. inversion E; subst st'.
    exists [], []. rewrite !app_nil_r. auto.
  - unfold segment in E. cbv zeta in E. fold (seg_len_of pl i) in E.
    rewrite (Rleb_false _ _ H) in E.
    destruct (panel_count_of (seg_len_of pl i) (mullion_spacing_mm prm)) as [n | e];
      simpl in E; [| discriminate].
    inversion E; subst st'. clear E.
    match goal with
    | |- context [fold_left (bay _ _ ?a ?b ?c ?d ?e ?f ?h) ?js ?s] =>
        destruct (bays_extend a b c d e f h js s) as (fr & gl & Eb)
    end.
    rewrite Eb.
    rewrite append_mullion_eq. unfold set_prev_yaxis.
    cbn [prev_yaxis breps_mullions breps_glass]. rewrite <- app_assoc.
    eexists. eexists. split; reflexivity.
Qed.

Lemma for_each_extends {I : Type} (body : State -> I -> result State) (xs : list I) :
  (forall st x st', body st x = Ok st' ->
                    exists fr gl, breps_mullions st' = breps_mullions st ++ fr
                                  /\ breps_glass st' = breps_glass st ++ gl) ->
  forall st st', for_each body xs st = Ok st' ->
                 exists fr gl, breps_mullions st' = breps_mullions st ++ fr
                               /\ breps_glass st' = breps_glass st ++ gl.
Proof.
  intro H. induction xs as [| x xs IH]; intros st st' E; simpl in E.
  - inversion E; subst. exists [], []. rewrite !app_nil_r. auto.
  - destruct (body st x) as [st1 | e] eqn:E1; simpl in E; [| discriminate].
    destruct (H _ _ _ E1) as (fr1 & gl1 & M1 & G1).
    destruct (IH _ _ E) as (fr2 & gl2 & M2 & G2).
    exists (fr1 ++ fr2), (gl1 ++ gl2). rewrite M2, G2, M1, G1, <- !app_assoc. auto.
Qed.

(** X10: solids are only ever appended, story after story.  For a resolved
    guide and a spacing that is not zero, the collections returned for
    [stories = N >= 1] begin with the collections returned for [stories = 1]:
    the first story does not depend on how many stories follow. *)
Theorem X10_first_story_is_a_prefix (g : Guide) (c : Curve) (pl : Polyline) (N : Z) :
  coercecurve g = Some c ->
  TryGetPolyline c = Some pl ->
  (2 <= Count pl)%Z ->
  mullion_spacing_mm prm <> 0 ->
  (1 <= N)%Z ->
  exists fr1 gl1 fr gl,
    wall (with_stories prm 1) g = Ok (fr1, gl1)
    /\ wall (with_stories prm N) g = Ok (fr1 ++ fr, gl1 ++ gl).
Proof.
  intros Hc Hp Hn Hs HN. unfold curtain_wall.
  rewrite (coerce_resolved _ _ _ _ g c pl Hc Hp Hn). cbv [bind].
  change (story extrudes (with_stories prm N) pl) with (story extrudes prm pl).
  change (story extrudes (with_stories prm 1) pl) with (story extrudes prm pl).
  change (stories (with_stories prm N)) with N.
  change (range (stories (with_stories prm 1))) with [0%Z].
  destruct (range_pos N HN) as (rest & Er). rewrite Er.
  assert (Hret : forall st s, exists st', story extrudes prm pl st s = Ok st').
  { intros st s. unfold story. apply for_each_returns.
    intros st1 i. apply segment_returns. exact Hs. }
  destruct (Hret (mkState None [] []) 0%Z) as (st1 & E1).
  destruct (for_each_returns (story extrudes prm pl) rest Hret st1) as (st2 & E2).
  cbn [for_each]. rewrite E1. cbn [bind]. rewrite E2.
  destruct (for_each_extends (story extrudes prm pl) rest) with (st := st1) (st' := st2)
    as (fr & gl & M & G).
  - intros st s st' E. unfold story in E.
    apply (for_each_extends _ _ (segment_extends pl _ _) _ _ E).
  - exact E2.
  - exists (breps_mullions st1), (breps_glass st1), fr, gl.
    rewrite M, G. split; reflexivity.
Qed.

End AppendOnly.

Lemma X10_witness :
  exists fr1 gl1 fr gl,
    wall_of (with_stories defaults 1) U_guide = Ok (fr1, gl1)
    /\ wall_of (with_stories defaults 2) U_guide = Ok (fr1 ++ fr, gl1 ++ gl).
Proof.
  apply (X10_first_story_is_a_prefix Polyline Polyline as_curve as_polyline
           always_extrudes defaults U_guide U_guide U_guide 2).
  - reflexivity.
  - reflexivity.
  - unfold Count. simpl. lia.
  - simpl. lra.
  - lia.
Defined.

(** ** Other edge cases *)

(** X11: a negative spacing is not an error: for a positive length the floor
    of the quotient is negative, the bay count is raised to 1 and the single
    bay spans the whole segment. *)
Theorem X11_negative_spacing_gives_one_bay (len spacing : R) :
  0 < len -> spacing < 0 ->
  panel_count_of len spacing = Ok 1%Z /\ step_of len 1 = len.
Proof.
  intros Hl Hs. rewrite panel_count_of_ok by lra.
  assert (Hq : len / spacing < 0).
  { unfold Rdiv. apply Rmult_pos_neg; [exact Hl |]. apply Rinv_lt_0_compat. exact Hs. }
  destruct (base_Int_part (len / spacing)) as [Hfl _].
  assert (Hneg : (Int_part (len / spacing) < 0)%Z) by (apply lt_IZR; lra).
  split; [f_equal; lia |]. unfold step_of. lra.
Qed.

Lemma X11_witness :
  panel_count_of 4000 (-1350) = Ok 1%Z /\ step_of 4000 1 = 4000.
Proof.
  apply (X11_negative_spacing_gives_one_bay 4000 (-1350)); lra.
Defined.

Section FloorErrors.

Variables Boundary Curve : Type.
Variable coercecurve : Boundary -> option Curve.
Variable Translation : R -> R -> R -> Curve -> Curve.
Variable extrudes : Curve -> R -> bool.

Local Abbreviation plate := (floor_plate Boundary Curve coercecurve Translation extrudes).

(** X12: [floor_plate] raises the TypeError of [_coerce_curve] exactly when
    the boundary is not a curve, and raises nothing else: whatever the
    thicknesses and whether or not the extrusions are built, a boundary that
    is a curve gives a dict with the four layers. *)
Theorem X12_floor_plate_errors (b : Boundary) (elev tf ts ti tst : R) :
  (plate b elev tf ts ti tst = Raise (TypeError "boundary must be a Curve")
   <-> coercecurve b = None)
  /\ (forall e, plate b elev tf ts ti tst = Raise e ->
                e = TypeError "boundary must be a Curve")
  /\ (coercecurve b <> None ->
      exists layers,
        plate b elev tf ts ti tst = Ok layers
        /\ keys layers = ["finish"; "screed"; "insulation"; "structural"]%string).
Proof.
  unfold floor_plate, _coerce_curve.
  destruct (coercecurve b) as [c |]; cbv [bind]; cbv zeta.
  - split; [split; intro H; discriminate |].
    split; [intros e H; discriminate |].
    intros _. eexists. split; reflexivity.
  - split; [split; reflexivity |].
    split; [intros e H; inversion H; reflexivity |].
    intro H. contradiction.
Qed.

End FloorErrors.

(** ** A segment at a story offset *)

Lemma translate_Z_box (dz : R) (o : Point3d) (x y : Vector3d) (sx sy h : R) :
  translate_Z dz (box (mkPlane o x y) sx sy h) = box (mkPlane (raise_Z o dz) x y) sx sy h.
Proof. reflexivity. Qed.

Lemma box_eq (o o' : Point3d) (x x' y : Vector3d) (sx sx' sy h : R) :
  o = o' -> x = x' -> sx = sx' ->
  box (mkPlane o x y) sx sy h = box (mkPlane o' x' y) sx' sy h.
Proof. intros; subst; reflexivity. Qed.

Section StoryOffset.

Variable extrudes : Rectangle3d -> R -> bool.
Hypothesis extrudes_all : forall r h, extrudes r h = true.
Variable prm : Params.

Local Abbreviation moved z0 := (map (translate_Z z0)).

Lemma clear_vec_offset z0 p x step j :
  clear_vec_of prm z0 p x step j = clear_vec_of prm 0 p x step j.
Proof. rewrite !clear_vec_scaled. reflexivity. Qed.

Lemma clear_span_offset z0 p x step j :
  clear_span_of prm z0 p x step j = clear_span_of prm 0 p x step j.
Proof. unfold clear_span_of. rewrite clear_vec_offset. reflexivity. Qed.

Lemma mullion_offset z0 pt x y :
  appended (mullion_at extrudes prm (raise_Z pt z0) x y)
  = moved z0 (appended (mullion_at extrudes prm (raise_Z pt 0) x y)).
Proof.
  unfold mullion_at. rewrite !(box_brep_total extrudes extrudes_all).
  cbn [appended map]. rewrite translate_Z_box. f_equal.
  apply box_eq; try reflexivity. apply point_eq; simpl; lra.
Qed.

Lemma bay_framing_offset z0 p bz x y step j :
  bay_framing extrudes prm z0 (z0 + story_height_mm prm) p bz x y step j
  = moved z0 (bay_framing extrudes prm 0 (0 + story_height_mm prm) p bz x y step j).
Proof.
  unfold bay_framing. rewrite !map_app. f_equal; [| f_equal].
  - apply (mullion_offset z0 (padd p (vscale x (IZR j * step))) x y).
  - unfold transom_at. cbv zeta. rewrite !(box_brep_total extrudes extrudes_all).
    cbn [appended map]. rewrite translate_Z_box. f_equal.
    rewrite (clear_vec_offset z0), (clear_span_offset z0).
    apply box_eq; try reflexivity. apply point_eq; simpl; lra.
  - unfold transom_at. cbv zeta. rewrite !(box_brep_total extrudes extrudes_all).
    cbn [appended map]. rewrite translate_Z_box. f_equal.
    rewrite (clear_vec_offset z0), (clear_span_offset z0).
    apply box_eq; try reflexivity. apply point_eq; simpl; lra.
Qed.

Lemma bay_glazing_offset z0 p bz x y step j :
  bay_glazing extrudes prm z0 p bz x y step j
  = moved z0 (bay_glazing extrudes prm 0 p bz x y step j).
Proof.
  unfold bay_glazing, glass_at, _panel_brep. cbv zeta.
  rewrite !(box_brep_total extrudes extrudes_all).
  cbn [appended map]. rewrite translate_Z_box. f_equal.
  rewrite (clear_vec_offset z0), (clear_span_offset z0).
  apply box_eq; try reflexivity. apply point_eq; simpl; lra.
Qed.

Lemma bay_emits z0 z1 p bz x y step st j :
  bay extrudes prm z0 z1 p bz x y step st j
  = (if Rleb (clear_span_of prm 0 p x step j) eps
        || Rleb (clear_width_of prm (clear_span_of prm 0 p x step j)) eps
        || Rleb (clear_height_of prm) eps
     then mkState (prev_yaxis st)
                  (breps_mullions st
                   ++ appended (mullion_at extrudes prm (base_pt_of z0 p x step j) x y))
                  (breps_glass st)
     else mkState (prev_yaxis st)
                  (breps_mullions st ++ bay_framing extrudes prm z0 z1 p bz x y step j)
                  (breps_glass st ++ bay_glazing extrudes prm z0 p bz x y step j)).
Proof.
  rewrite <- (clear_span_offset z0).
  destruct (Rle_lt_dec (clear_span_of prm z0 p x step j) eps) as [H1 | H1];
    [| destruct (Rle_lt_dec (clear_width_of prm (clear_span_of prm z0 p x step j)) eps)
         as [H2 | H2];
       [| destruct (Rle_lt_dec (clear_height_of prm) eps) as [H3 | H3]]].
  4: { rewrite (Rleb_false _ _ H1), (Rleb_false _ _ H2), (Rleb_false _ _ H3).
       cbn [orb]. rewrite bay_full by assumption.
       rewrite append_glass_eq, !append_mullion_eq.
       cbn [prev_yaxis breps_mullions breps_glass].
       unfold bay_framing, bay_glazing. rewrite <- !app_assoc. reflexivity. }
  all: rewrite bay_skip by auto; rewrite append_mullion_eq.
  - rewrite (Rleb_true _ _ H1). reflexivity.
  - rewrite (Rleb_true _ _ H2), orb_true_r. reflexivity.
  - rewrite (Rleb_true _ _ H3), orb_true_r. reflexivity.
Qed.

Lemma bays_offset z0 p bz x y step js st0 stz :
  prev_yaxis stz = prev_yaxis st0 ->
  breps_mullions stz = moved z0 (breps_mullions st0) ->
  breps_glass stz = moved z0 (breps_glass st0) ->
  let st0' := fold_left (bay extrudes prm 0 (0 + story_height_mm prm) p bz x y step)
                        js st0 in
  let stz' := fold_left (bay extrudes prm z0 (z0 + story_height_mm prm) p bz x y step)
                        js stz in
  prev_yaxis stz' = prev_yaxis st0'
  /\ breps_mullions stz' = moved z0 (breps_mullions st0')
  /\ breps_glass stz' = moved z0 (breps_glass st0').
Proof.
  revert st0 stz. induction js as [| j js IH]; intros st0 stz Hp Hm Hg; cbn [fold_left].
  - auto.
  - apply IH; rewrite !bay_emits;
      destruct (Rleb (clear_span_of prm 0 p x step j) eps
                || Rleb (clear_width_of prm (clear_span_of prm 0 p x step j)) eps
                || Rleb (clear_height_of prm) eps);
      cbn [prev_yaxis breps_mullions breps_glass]; try assumption;
      rewrite ?map_app; try (f_equal; try assumption).
    + apply (mullion_offset z0 (padd p (vscale x (IZR j * step))) x y).
    + apply bay_framing_offset.
    + apply bay_glazing_offset.
Qed.

(** X13: with every extrusion built and a spacing that is not zero, what a
    segment adds at story offset [z0] is what it adds at offset 0, in the same
    order, moved up by [z0], provided it starts from the same lateral axis;
    the lateral axis it leaves is the same at both offsets. *)
Theorem X13_segment_at_offset_is_a_translate pl i prev z0 :
  mullion_spacing_mm prm <> 0 ->
  exists y fr gl,
    segment extrudes prm pl 0 (0 + story_height_mm prm) (mkState prev [] []) i
    = Ok (mkState y fr gl)
    /\ segment extrudes prm pl z0 (z0 + story_height_mm prm) (mkState prev [] []) i
       = Ok (mkState y (moved z0 fr) (moved z0 gl)).
Proof.
  intro Hs. destruct (Rle_lt_dec (seg_len_of pl i) eps) as [H | H].
  - exists prev, [], []. rewrite !segment_skip by exact H. auto.
  - rewrite !segment_run by assumption. cbn [prev_yaxis].
    set (x := xaxis_of pl i). set (y := yaxis_of prev pl i).
    set (n := Z.max 1 (Int_part (seg_len_of pl i / mullion_spacing_mm prm))).
    set (step := step_of (seg_len_of pl i) n).
    destruct (bays_offset z0 (item pl i) (pZ (item pl i)) x y step (range n)
                (set_prev_yaxis y (mkState prev [] []))
                (set_prev_yaxis y (mkState prev [] [])))
      as (Hp & Hm & Hg); try reflexivity.
    rewrite !append_mullion_eq.
    rewrite Hp, Hm, Hg.
    rewrite (mullion_offset z0 (item pl (i + 1)) x y).
    eexists. eexists. eexists. split; [reflexivity |].
    rewrite map_app. reflexivity.
Qed.

End StoryOffset.

Lemma X13_witness :
  exists y fr gl,
    segment always_extrudes defaults U_guide 0 (0 + story_height_mm defaults)
            (mkState (Some (mkVector3d 0 1 0)) [] []) 1
    = Ok (mkState y fr gl)
    /\ segment always_extrudes defaults U_guide 3200 (3200 + story_height_mm defaults)
               (mkState (Some (mkVector3d 0 1 0)) [] []) 1
       = Ok (mkState y (map (translate_Z 3200) fr) (map (translate_Z 3200) gl)).
Proof.
  apply (X13_segment_at_offset_is_a_translate always_extrudes (fun _ _ => eq_refl)
           defaults U_guide 1 (Some (mkVector3d 0 1 0)) 3200).
  simpl. lra.
Defined.

(** ** The error properties at concrete inputs *)


Lemma X2_witness :
  wall_of (with_stories zero_spacing 0) U_guide = Ok ([], [])
  /\ wall_of zero_spacing [mkPoint3d 1 2 3; mkPoint3d 1 2 3; mkPoint3d 1 2 3]
     = Ok ([], []).
Proof.
  split.
  - apply (X2_nothing_to_build Polyline Polyline as_curve as_polyline always_extrudes
             (with_stories zero_spacing 0) U_guide U_guide U_guide);
      [reflexivity | reflexivity | unfold Count; simpl; lia |].
    left. simpl. lia.
  - apply (X2_nothing_to_build Polyline Polyline as_curve as_polyline always_extrudes
             zero_spacing _ [mkPoint3d 1 2 3; mkPoint3d 1 2 3; mkPoint3d 1 2 3]
             [mkPoint3d 1 2 3; mkPoint3d 1 2 3; mkPoint3d 1 2 3]);
      [reflexivity | reflexivity | unfold Count; simpl; lia |].
    right. intros i Hi. unfold Count in Hi. simpl in Hi.
    assert (Hc : i = 0%Z \/ i = 1%Z) by lia.
    destruct Hc; subst i; unfold seg_len_of, item; simpl;
      rewrite psub_self; unfold eps; lra.
Defined.

(** ** A bay narrower than its mullion *)

Lemma narrow_guide_seg_len : seg_len_of narrow_guide 0 = 30.
Proof. apply Length_eval; simpl; lra. Qed.

(** C4: on a single segment of length 30 with the default parameters the one
    bay is narrower than its mullion of 60, so the span left between the inner
    faces of its mullions is -30 and its clear width -54; the code takes the
    clear span as a length, 30, finds a clear width of 6, and adds two
    transoms and a glass to the two mullions. *)
Theorem C4_narrow_bay_is_glazed :
  let p := item narrow_guide 0 in
  let x := xaxis_of narrow_guide 0 in
  let step := step_of (seg_len_of narrow_guide 0) 1 in
  panel_count_of (seg_len_of narrow_guide 0) (mullion_spacing_mm defaults) = Ok 1%Z
  /\ step - mullion_width_mm defaults = -30
  /\ step - mullion_width_mm defaults - 2.0 * glass_gap_mm defaults <= eps
  /\ clear_span_of defaults 0 p x step 0 = 30
  /\ clear_width_of defaults (clear_span_of defaults 0 p x step 0) = 6
  /\ exists m b t e g,
       wall_of defaults narrow_guide = Ok ([m; b; t; e], [g])
       /\ height m = story_height_mm defaults
       /\ height b = transom_height_mm defaults
       /\ height t = transom_height_mm defaults
       /\ height e = story_height_mm defaults
       /\ height g = clear_height_of defaults
       /\ T1 (rect_X (profile g)) - T0 (rect_X (profile g)) = 6.
Proof.
  intros p x step.
  assert (Hn : Int_part (30 / 1350) = 0%Z) by (apply Int_part_unique; lra).
  assert (Hstep : step = 30).
  { subst step. rewrite narrow_guide_seg_len. unfold step_of. lra. }
  assert (Hx : Length x = 1).
  { apply xaxis_unit. rewrite narrow_guide_seg_len. unfold eps. lra. }
  assert (Hcs : clear_span_of defaults 0 p x step 0 = 30).
  { rewrite clear_span_unit by exact Hx. rewrite Hstep. simpl.
    rewrite Rabs_left; lra. }
  split.
  { rewrite narrow_guide_seg_len, panel_count_of_ok by (simpl; lra).
    simpl. rewrite Hn. reflexivity. }
  split; [rewrite Hstep; simpl; lra |].
  split; [rewrite Hstep; unfold eps; simpl; lra |].
  split; [exact Hcs |].
  split; [unfold clear_width_of; rewrite Hcs; simpl; lra |].
  unfold wall_of, curtain_wall, _coerce_polyline, as_curve, as_polyline.
  change (Count narrow_guide <? 2)%Z with false. cbv [bind].
  change (range (stories defaults)) with [0%Z].
  cbv [for_each bind story].
  change (range (Count narrow_guide - 1)) with [0%Z].
  cbv [for_each bind].
  pose proof (segment_regular always_extrudes defaults narrow_guide
                (0 * story_height_mm defaults)
                (0 * story_height_mm defaults + story_height_mm defaults)
                (mkState None [] []) 0) as Hseg.
  cbv zeta in Hseg. rewrite narrow_guide_seg_len in Hseg.
  change (mullion_spacing_mm defaults) with 1350 in Hseg.
  rewrite Hn in Hseg. change (Z.max 1 0) with 1%Z in Hseg.
  replace (step_of 30 1) with 30 in Hseg by (unfold step_of; lra).
  rewrite Hseg; clear Hseg.
  2-6: unfold eps, clear_height_of; cbn [mullion_width_mm glass_gap_mm story_height_mm
                                         transom_height_mm defaults];
       try rewrite Rabs_left; lra.
  cbn [breps_mullions breps_glass prev_yaxis app].
  change (range 1) with [0%Z]. cbn [flat_map].
  unfold bay_framing, bay_glazing, mullion_at, transom_at, glass_at, _panel_brep.
  cbv zeta. rewrite !(box_brep_total always_extrudes (fun _ _ => eq_refl)).
  cbn [appended app].
  do 5 eexists. split; [reflexivity |].
  unfold box, _centered_rect_curve, clear_width_of.
  cbn [height profile rect_X T0 T1].
  repeat split; try reflexivity.
  fold p x.
  replace (clear_span_of defaults (0 * story_height_mm defaults) p x 30 0)
    with (clear_span_of defaults 0 p x step 0).
  - rewrite Hcs. simpl. lra.
  - rewrite Hstep. unfold clear_span_of. rewrite !clear_vec_scaled. reflexivity.
Qed.

(** ** Where the layers of the floor plate lie *)

Lemma translate_polyline_height (z zb : R) (c : Polyline) :
  Forall (fun p => pZ p = zb) c ->
  Forall (fun p => pZ p = zb + z) (translate_polyline 0 0 z c).
Proof.
  intro H. unfold translate_polyline. induction H as [| p c Hp Hc IH]; simpl.
  - constructor.
  - constructor; [simpl; lra | exact IH].
Qed.

Lemma translate_polyline_outline (z : R) (c : Polyline) :
  map pX (translate_polyline 0 0 z c) = map pX c
  /\ map pY (translate_polyline 0 0 z c) = map pY c.
Proof.
  unfold translate_polyline. induction c as [| p c [IHx IHy]]; simpl; [auto |].
  rewrite IHx, IHy. split; f_equal; lra.
Qed.

Section FloorGeometry.

Variable Boundary : Type.
Variable coercecurve : Boundary -> option Polyline.
Variable extrudes : Polyline -> R -> bool.

Local Abbreviation plate :=
  (floor_plate Boundary Polyline coercecurve translate_polyline extrudes).


End FloorGeometry.

Lemma raised_square_height : Forall (fun p => pZ p = 500) raised_square.
Proof. unfold raised_square. repeat constructor. Qed.



(** ** Elevations along a sloped segment *)

Section Elevations.

Variable extrudes : Rectangle3d -> R -> bool.
Variable prm : Params.

(** C10: on a segment longer than [eps] whose bays have room for glazing,
    with every extrusion built, the segment adds for each bay a mullion, two
    transoms and a glass.  The transoms and the glass of every bay take their
    elevation from the Z of the segment's start point plus the story offset,
    whatever the bay index, while the mullion stands on the interpolated
    point of the guide; where the forward axis has a vertical component and
    the bay does not start on the segment's start, the mullion and the bottom
    transom of the bay are at different elevations. *)
Theorem C10_elevation_taken_from_segment_start pl z0 z1 st i :
  (forall r h, extrudes r h = true) ->
  eps < seg_len_of pl i ->
  mullion_spacing_mm prm <> 0 ->
  let p := item pl i in
  let x := xaxis_of pl i in
  let y := yaxis_of (prev_yaxis st) pl i in
  let n := Z.max 1 (Int_part (seg_len_of pl i / mullion_spacing_mm prm)) in
  let step := step_of (seg_len_of pl i) n in
  eps < Rabs (step - mullion_width_mm prm) ->
  eps < Rabs (step - mullion_width_mm prm) - 2.0 * glass_gap_mm prm ->
  eps < clear_height_of prm ->
  segment extrudes prm pl z0 z1 st i
  = Ok (mkState
          (Some y)
          (breps_mullions st
           ++ flat_map (bay_framing extrudes prm z0 z1 p (pZ p) x y step) (range n)
           ++ appended (mullion_at extrudes prm (raise_Z (item pl (i + 1)) z0) x y))
          (breps_glass st
           ++ flat_map (bay_glazing extrudes prm z0 p (pZ p) x y step) (range n)))
  /\ forall j,
       exists m b t g,
         bay_framing extrudes prm z0 z1 p (pZ p) x y step j = [m; b; t]
         /\ bay_glazing extrudes prm z0 p (pZ p) x y step j = [g]
         /\ origin_of m = base_pt_of z0 p x step j
         /\ pZ (origin_of m) = pZ p + vZ x * (IZR j * step) + z0
         /\ pZ (origin_of b) = pZ p + z0
         /\ pZ (origin_of t) = pZ p + z1 - transom_height_mm prm
         /\ pZ (origin_of g) = pZ p + z0 + transom_height_mm prm + glass_gap_mm prm
         /\ (vZ x * (IZR j * step) <> 0 -> pZ (origin_of m) <> pZ (origin_of b)).
Proof.
  intros Hext Hlen Hsp p x y n step H1 H2 H3.
  split; [apply segment_regular; assumption |].
  intro j.
  unfold bay_framing, bay_glazing, mullion_at, transom_at, glass_at, _panel_brep.
  cbv zeta. rewrite !(box_brep_total extrudes Hext). cbn [appended app].
  do 4 eexists. split; [reflexivity |]. split; [reflexivity |].
  unfold origin_of, box, _centered_rect_curve, base_pt_of.
  cbn [profile rect_plane Origin pX pY pZ padd vscale raise_Z].
  repeat split; try reflexivity.
  intros Hslope Heq. apply Hslope. cbn [vZ vscale] in Heq. lra.
Qed.

End Elevations.

Lemma sloped_guide_seg_len : seg_len_of sloped_guide 0 = 5000.
Proof. apply Length_eval; simpl; lra. Qed.

Lemma sloped_guide_climb : vZ (xaxis_of sloped_guide 0) = 4000 / 5000.
Proof.
  unfold xaxis_of.
  rewrite (Unitize_eval _ 5000); [| lra | exact sloped_guide_seg_len].
  simpl. lra.
Qed.

Lemma C10_witness :
  let p := item sloped_guide 0 in
  let x := xaxis_of sloped_guide 0 in
  let y := yaxis_of None sloped_guide 0 in
  (exists st',
      segment always_extrudes defaults sloped_guide 0 3200 (mkState None [] []) 0
      = Ok st'
      /\ List.length (breps_mullions st') = 10%nat
      /\ List.length (breps_glass st') = 3%nat)
  /\ exists m b t g,
       bay_framing always_extrudes defaults 0 3200 p (pZ p) x y (step_of 5000 3) 1
       = [m; b; t]
       /\ bay_glazing always_extrudes defaults 0 p (pZ p) x y (step_of 5000 3) 1 = [g]
       /\ pZ (origin_of b) = 0
       /\ pZ (origin_of g) = 72
       /\ pZ (origin_of m) <> pZ (origin_of b).
Proof.
  intros p x y.
  assert (Hn : Int_part (5000 / 1350) = 3%Z) by (apply Int_part_unique; lra).
  assert (Hstep : step_of 5000 3 = 5000 / 3) by reflexivity.
  pose proof (C10_elevation_taken_from_segment_start always_extrudes defaults
                sloped_guide 0 3200 (mkState None [] []) 0 (fun _ _ => eq_refl))
    as Hthm.
  cbv zeta in Hthm. rewrite sloped_guide_seg_len in Hthm.
  change (mullion_spacing_mm defaults) with 1350 in Hthm.
  rewrite Hn in Hthm. change (Z.max 1 3) with 3%Z in Hthm.
  destruct Hthm as [Hseg Hbay].
  - unfold eps. lra.
  - lra.
  - rewrite Hstep. unfold eps. simpl. rewrite Rabs_right; lra.
  - rewrite Hstep. unfold eps. simpl. rewrite Rabs_right; lra.
  - unfold eps, clear_height_of. simpl. lra.
  - split.
    + eexists. split; [exact Hseg |].
      cbn [breps_mullions breps_glass app]. change (range 3) with [0%Z; 1%Z; 2%Z].
      cbn [flat_map]. unfold bay_framing, bay_glazing, mullion_at, transom_at,
        glass_at, _panel_brep. cbv zeta.
      rewrite !(box_brep_total always_extrudes (fun _ _ => eq_refl)).
      split; reflexivity.
    + destruct (Hbay 1%Z) as (m & b & t & g & Ef & Eg & _ & Hm & Hb & _ & Hg & Hne).
      exists m, b, t, g. fold p x y in Ef, Eg.
      change (prev_yaxis (mkState None [] [])) with (@None Vector3d) in Ef, Eg.
      fold y in Ef, Eg.
      split; [exact Ef |]. split; [exact Eg |].
      split; [rewrite Hb; simpl; lra |].
      split; [rewrite Hg; simpl; lra |].
      apply Hne. rewrite sloped_guide_climb, Hstep. intro H. lra.
Defined.

(** ** An upright glazed bay *)

Section UprightBay.

Variable extrudes : Rectangle3d -> R -> bool.
Variable prm : Params.

Lemma horizontal_unit_length (x : Vector3d) :
  vZ x = 0 -> vX x * vX x + vY x * vY x = 1 -> Length x = 1.
Proof. intros Hz Hu. apply Length_eval; [lra |]. rewrite Hz. lra. Qed.

(** X7: on a horizontal forward axis, with the candidate lateral axis (not
    reversed), every extrusion built and a bay wider than its mullion with
    room for glazing, called as the story loop calls it (top of the story at
    [z0 + story_height_mm]), the bay adds its mullion, two transoms and one
    glass, all four extruded straight up (the normal of their profile plane
    is world Z).  Both transoms span the clear span and are centred on the
    guide line at the middle of the bay; the top transom ends at the top of
    the story; the glass is as wide as the clear span less two gaps, as deep
    as the panel thickness and as high as the clear height; it starts one gap
    above the top of the bottom transom and ends one gap below the top
    transom, and with a gap that is not negative it lies within the clear
    span. *)
Theorem X7_glass_sits_between_the_transoms z0 p bz x step st j :
  (forall r h, extrudes r h = true) ->
  vZ x = 0 ->
  vX x * vX x + vY x * vY x = 1 ->
  eps < step - mullion_width_mm prm ->
  eps < step - mullion_width_mm prm - 2.0 * glass_gap_mm prm ->
  eps < clear_height_of prm ->
  let y := candidate_yaxis x in
  exists m b t g,
    bay extrudes prm z0 (z0 + story_height_mm prm) p bz x y step st j
    = mkState (prev_yaxis st) (breps_mullions st ++ [m; b; t]) (breps_glass st ++ [g])
    /\ Forall (fun s => normal_of s = Vector3d_ZAxis) [m; b; t; g]
    /\ origin_of m = base_pt_of z0 p x step j
    /\ height b = transom_height_mm prm
    /\ height t = transom_height_mm prm
    /\ height g = clear_height_of prm
    /\ pZ (origin_of b) = bz + z0
    /\ pZ (origin_of g) = pZ (origin_of b) + height b + glass_gap_mm prm
    /\ pZ (origin_of g) + height g + glass_gap_mm prm = pZ (origin_of t)
    /\ pZ (origin_of t) + height t = bz + z0 + story_height_mm prm
    /\ T1 (rect_X (profile b)) - T0 (rect_X (profile b)) = step - mullion_width_mm prm
    /\ rect_X (profile t) = rect_X (profile b)
    /\ T1 (rect_X (profile g)) - T0 (rect_X (profile g))
       = step - mullion_width_mm prm - 2.0 * glass_gap_mm prm
    /\ T1 (rect_Y (profile g)) - T0 (rect_Y (profile g)) = panel_thickness_mm prm
    /\ pX (origin_of b) = pX p + vX x * ((IZR j + 0.5) * step)
    /\ pY (origin_of b) = pY p + vY x * ((IZR j + 0.5) * step)
    /\ pX (origin_of t) = pX (origin_of b)
    /\ pY (origin_of t) = pY (origin_of b)
    /\ pX (origin_of g) = pX (origin_of b) - vX y * glass_center_offset_of prm
    /\ pY (origin_of g) = pY (origin_of b) - vY y * glass_center_offset_of prm
    /\ (0 <= glass_gap_mm prm ->
        T0 (rect_X (profile b)) <= T0 (rect_X (profile g))
        /\ T1 (rect_X (profile g)) <= T1 (rect_X (profile b))).
Proof.
  intros Hext Hz Hu H1 H2 H3 y. pose proof eps_pos as He.
  pose proof (horizontal_unit_length x Hz Hu) as Hx.
  assert (Hcs : clear_span_of prm z0 p x step j = step - mullion_width_mm prm).
  { rewrite clear_span_unit by exact Hx. apply Rabs_right. lra. }
  assert (Hn : CrossProduct x y = Vector3d_ZAxis).
  { subst y. rewrite (candidate_horizontal x Hz Hu).
    apply vector_eq; simpl; rewrite ?Hz; lra. }
  rewrite bay_full; [| rewrite Hcs; lra | unfold clear_width_of; rewrite Hcs; lra
                     | exact H3].
  unfold mullion_at, transom_at, glass_at, _panel_brep. cbv zeta.
  rewrite !(box_brep_total extrudes Hext).
  rewrite (clear_dir_forward prm z0 p x step j Hx) by lra. rewrite Hcs.
  rewrite append_glass_eq, !append_mullion_eq.
  cbn [appended prev_yaxis breps_mullions breps_glass].
  rewrite <- !app_assoc. cbn [app].
  do 4 eexists. split; [reflexivity |].
  split; [repeat constructor; exact Hn |].
  unfold origin_of, box, _centered_rect_curve, clear_width_of, clear_height_of,
    mid_of, panel_start_of, panel_end_of, base_pt_of, next_pt_of.
  cbn [profile rect_plane rect_X rect_Y Origin height T0 T1 pX pY pZ vX vY vZ
       psub padd pminus ppadd pscale vscale raise_Z].
  repeat split; try reflexivity; try lra.
Qed.

End UprightBay.

Lemma X7_witness :
  let p := mkPoint3d 0 0 0 in
  let x := mkVector3d 1 0 0 in
  let y := candidate_yaxis x in
  exists m b t g,
    bay always_extrudes defaults 0 (0 + story_height_mm defaults) p 0 x y 2000
        (mkState None [] []) 1
    = mkState None [m; b; t] [g]
    /\ Forall (fun s => normal_of s = Vector3d_ZAxis) [m; b; t; g]
    /\ pZ (origin_of g) = pZ (origin_of b) + height b + glass_gap_mm defaults
    /\ pZ (origin_of g) + height g + glass_gap_mm defaults = pZ (origin_of t)
    /\ T1 (rect_X (profile g)) - T0 (rect_X (profile g)) = 1916.
Proof.
  intros p x y.
  destruct (X7_glass_sits_between_the_transoms always_extrudes defaults 0 p 0 x 2000
              (mkState None [] []) 1%Z)
    as (m & b & t & g & E & Hn & _ & _ & _ & _ & _ & Hg1 & Hg2 & _ & _ & _ & Hw & _).
  - reflexivity.
  - reflexivity.
  - simpl. lra.
  - unfold eps. simpl. lra.
  - unfold eps. simpl. lra.
  - unfold clear_height_of, eps. simpl. lra.
  - exists m, b, t, g. split; [exact E |]. split; [exact Hn |].
    split; [exact Hg1 |]. split; [exact Hg2 |].
    rewrite Hw. simpl. lra.
Defined.
